(** * StudyFlow: the course record store and the grade aggregator

    A shallow embedding of [src/services/api/courseService.js] and of the
    grade computation of [src/components/pages/Grades.jsx].

    Numbers.  The grade computation works on fractional numbers, so its
    JavaScript Numbers are binary64 floats ([PrimFloat.float], IEEE 754
    round-to-nearest-even, the arithmetic of JavaScript).  Course Ids are
    integers; they are carried as [Z], and where the code computes a Number
    from an integer (adding 1, parsing a numeral, printing) the rounding to
    binary64 is written out ([round64]). *)

From Stdlib Require Import ZArith List Bool String Ascii Uint63 Floats.
From Stdlib Require Import Decimal DecimalString DecimalPos DecimalZ.
From stdpp Require Import gmap strings list fin_maps.

#[local] Set Warnings "-register-all,-inexact-float".

(** ** JavaScript Number helpers on binary64 *)

Module JS.

Local Open Scope float_scope.

(** 2^52: from here on every binary64 value is an integer. *)
Definition two52 : float := 4503599627370496.

(** [Math.floor] on [|x| < 2^52]: adding and removing 2^52 rounds to the
    nearest integer, which is then stepped down when it lies above [x]. *)
Definition Math_floor (x : float) : float :=
  if negb (PrimFloat.abs x <? two52) then x
  else
    let r := if 0 <=? x then (x + two52) - two52 else (x - two52) + two52 in
    if x <? r then r - 1 else r.

(** [Math.round]: the integral Number closest to [x], the one closer to
    +infinity on a tie; NaN, the infinities and integral values (the zeros
    included) are returned as they are, and a negative [x >= -0.5] yields
    [-0]. *)
Definition Math_round (x : float) : float :=
  if negb (PrimFloat.abs x <? two52) then x
  else
    let f := Math_floor x in
    if x =? f then x
    else if (x <? 0) && (-0.5 <=? x) then neg_zero
    else if x - f <? 0.5 then f else f + 1.

(** The Number of an array length. *)
Definition of_length (n : nat) : float :=
  of_uint63 (Uint63.of_Z (Z.of_nat n)).

End JS.

(** ** The grade aggregator ([Grades.jsx]) *)

Module Grades.

Import JS.
Local Open Scope float_scope.

Module GradeCategory.
Record t := mk { name : string; weight : float }.
End GradeCategory.

(** [grade = None] is JavaScript's [null]. *)
Module Assignment.
Record t := mk
  { courseId : Z; category : string; completed : bool; grade : option float }.
End Assignment.

(** [gradeCategories = None]: the field is missing (or falsy). *)
Module Course.
Record t := mk { Id : Z; gradeCategories : option (list GradeCategory.t) }.
End Course.

Module CategoryGrade.
Record t := mk
  { name : string; weight : float; average : float;
    count : nat; weightedScore : float }.
End CategoryGrade.

(** [selectedCourse] is [null] until a course is selected. *)
Definition strict_eq_Id (x : Z) (selectedCourse : option Z) : bool :=
  match selectedCourse with Some s => Z.eqb x s | None => false end.

(** [courses.find(c => c.Id === selectedCourse)] *)
Definition currentCourse (courses : list Course.t) (selectedCourse : option Z)
  : option Course.t :=
  List.find (fun c => strict_eq_Id (Course.Id c) selectedCourse) courses.

(** [assignments.filter(a => a.courseId === selectedCourse && a.completed
    && a.grade !== null)] *)
Definition courseAssignments (assignments : list Assignment.t)
    (selectedCourse : option Z) : list Assignment.t :=
  List.filter
    (fun a => strict_eq_Id (Assignment.courseId a) selectedCourse
              && Assignment.completed a
              && match Assignment.grade a with Some _ => true | None => false end)
    assignments.

(** [a.grade] as an addend: [null] counts as [0] in [sum + a.grade]. *)
Definition grade_num (a : Assignment.t) : float :=
  match Assignment.grade a with Some g => g | None => 0 end.

(** [courseAssignments.filter(a => a.category === category.name)] *)
Definition categoryAssignments (courseAssignments : list Assignment.t)
    (category : GradeCategory.t) : list Assignment.t :=
  List.filter
    (fun a => String.eqb (Assignment.category a) (GradeCategory.name category))
    courseAssignments.

(** The body of the [map] callback of [calculateGradeByCategory]. *)
Definition gradeOfCategory (courseAssignments : list Assignment.t)
    (category : GradeCategory.t) : CategoryGrade.t :=
  let cas := categoryAssignments courseAssignments category in
  if Nat.eqb (length cas) 0 then
    CategoryGrade.mk (GradeCategory.name category) (GradeCategory.weight category)
                     0 0 0
  else
    let average :=
      fold_left (fun sum a => sum + grade_num a) cas 0 / of_length (length cas) in
    let weightedScore := (average * GradeCategory.weight category) / 100 in
    CategoryGrade.mk (GradeCategory.name category) (GradeCategory.weight category)
                     (Math_round (average * 10) / 10)
                     (length cas)
                     (Math_round (weightedScore * 10) / 10).

Definition calculateGradeByCategory (currentCourse : option Course.t)
    (courseAssignments : list Assignment.t) : list CategoryGrade.t :=
  match currentCourse with
  | None => []
  | Some c =>
      match Course.gradeCategories c with
      | None => []
      | Some cats => List.map (gradeOfCategory courseAssignments) cats
      end
  end.

Definition currentGrade (categoryGrades : list CategoryGrade.t) : float :=
  fold_left (fun sum cat => sum + CategoryGrade.weightedScore cat) categoryGrades 0.

Definition totalWeight (categoryGrades : list CategoryGrade.t) : float :=
  fold_left
    (fun sum cat =>
       if Nat.ltb 0 (CategoryGrade.count cat) then sum + CategoryGrade.weight cat
       else sum)
    categoryGrades 0.

Definition adjustedGradeOf (categoryGrades : list CategoryGrade.t) : float :=
  if 0 <? totalWeight categoryGrades
  then (currentGrade categoryGrades / totalWeight categoryGrades) * 100
  else 0.

(** What one render of the component derives from its state. *)
Definition categoryGrades (courses : list Course.t)
    (assignments : list Assignment.t) (selectedCourse : option Z)
  : list CategoryGrade.t :=
  calculateGradeByCategory (currentCourse courses selectedCourse)
                           (courseAssignments assignments selectedCourse).

Definition adjustedGrade (courses : list Course.t)
    (assignments : list Assignment.t) (selectedCourse : option Z) : float :=
  adjustedGradeOf (categoryGrades courses assignments selectedCourse).

(** [{Math.round(adjustedGrade)}%] *)
Definition displayedGrade (courses : list Course.t)
    (assignments : list Assignment.t) (selectedCourse : option Z) : float :=
  Math_round (adjustedGrade courses assignments selectedCourse).

(** *** Reference definitions for the aggregator *)

(** Rounding to one decimal place, as both fields apply it. *)
Definition round1 (x : float) : float := Math_round (x * 10) / 10.

(** The grades of the graded assignments matching a category. *)
Definition matching_grades (courseAssignments : list Assignment.t)
    (category : GradeCategory.t) : list float :=
  List.map grade_num (categoryAssignments courseAssignments category).

(** The mean of a sequence of grades, summed from the left. *)
Definition mean (grades : list float) : float :=
  fold_left add grades 0 / of_length (length grades).

(** The weighted score as the specification words it: taken from the
    average that was already rounded, and rounded again. *)
Definition weightedScore_of_rounded_average (grades : list float)
    (weight : float) : float :=
  round1 ((round1 (mean grades) * weight) / 100).

(** The weighted score taken from the mean itself. *)
Definition weightedScore_of_mean (grades : list float) (weight : float)
  : float :=
  round1 ((mean grades * weight) / 100).

(** The rollup expression with its division made to report a zero
    divisor ([None]). *)
Definition checked_div (x y : float) : option float :=
  if y =? 0 then None else Some (x / y).

Definition adjustedGradeOf_checked (categoryGrades : list CategoryGrade.t)
  : option float :=
  if 0 <? totalWeight categoryGrades
  then option_map (fun q => q * 100)
         (checked_div (currentGrade categoryGrades) (totalWeight categoryGrades))
  else Some 0.

(** The input of the worked aggregation example. *)
Definition example_course : Course.t :=
  Course.mk 1
    (Some [GradeCategory.mk "Homework" 40; GradeCategory.mk "Exams" 60]).

Definition example_assignments : list Assignment.t :=
  [Assignment.mk 1 "Homework" true (Some 90);
   Assignment.mk 1 "Homework" true (Some 80);
   Assignment.mk 1 "Exams" true (Some 70)].

(** A category whose mean, 260/3, is not a one-decimal number. *)
Definition thirds_category : GradeCategory.t := GradeCategory.mk "Exams" 80.

Definition thirds_assignments : list Assignment.t :=
  [Assignment.mk 1 "Exams" true (Some 80);
   Assignment.mk 1 "Exams" true (Some 90);
   Assignment.mk 1 "Exams" true (Some 90)].

(** *** The component state, loadData and the view *)

(** A value of the [error] state and of [err.message], as far as the
    component tells values apart: a string, or any other value ([null],
    [undefined], a number, an object, ...) with its truthiness. *)
Inductive js_value :=
| JString (s : string)
| JOther (truthy : bool).

(** [null] *)
Definition js_null : js_value := JOther false.

(** The empty string is the one falsy string. *)
Definition js_truthy (v : js_value) : bool :=
  match v with
  | JString s => negb (String.eqb s "")
  | JOther truthy => truthy
  end.

Module State.
Record t := mk
  { courses : list Course.t; assignments : list Assignment.t;
    loading : bool; error : js_value; selectedCourse : option Z }.
End State.

(** The [useState] initial values. *)
Definition initialState : State.t := State.mk [] [] true js_null None.

(** The reason [err] of a rejection: [Unreadable] when reading
    [err.message] throws, as it does for [undefined] and for [null];
    otherwise the value of [err.message], which is [undefined] when [err]
    has no such property. *)
Inductive reason :=
| Unreadable
| Message (message : js_value).

(** How [Promise.all] of the two [getAll] calls settles. *)
Inductive settled :=
| Resolved (coursesData : list Course.t) (assignmentsData : list Assignment.t)
| Rejected (err : reason).

(** [!selectedCourse]: [null] and [0] are falsy. *)
Definition not_selected (selectedCourse : option Z) : bool :=
  match selectedCourse with
  | None => true
  | Some z => Z.eqb z 0
  end.

(** [err.message || "Failed to load grades"] *)
Definition error_message (message : js_value) : js_value :=
  if js_truthy message then message else JString "Failed to load grades".

(** The state while [loadData] awaits the two calls. *)
Definition loadData_pending (st : State.t) : State.t :=
  State.mk (State.courses st) (State.assignments st) true js_null
           (State.selectedCourse st).

(** The state once [loadData], called in the state [st], has finished. When
    [err.message] throws inside the [catch] block, [setError] is not
    reached: the error stays [null], as set before the calls, and the
    [finally] block still ends the loading. *)
Definition loadData (st : State.t) (s : settled) : State.t :=
  match s with
  | Resolved coursesData assignmentsData =>
      State.mk coursesData assignmentsData false js_null
        (match coursesData with
         | c :: _ =>
             if not_selected (State.selectedCourse st)
             then Some (Course.Id c)
             else State.selectedCourse st
         | [] => State.selectedCourse st
         end)
  | Rejected (Message message) =>
      State.mk (State.courses st) (State.assignments st) false
               (error_message message) (State.selectedCourse st)
  | Rejected Unreadable =>
      State.mk (State.courses st) (State.assignments st) false
               js_null (State.selectedCourse st)
  end.

(** Which of its four returns the component takes. *)
Inductive view :=
| Loading
| Error (message : js_value)
| NoCourses
| Page.

Definition render (st : State.t) : view :=
  if State.loading st then Loading
  else if js_truthy (State.error st) then Error (State.error st)
  else
    match State.courses st with
    | [] => NoCourses
    | _ :: _ => Page
    end.

(** [courseAssignments.slice(0, 10)], the list under "Recent Graded
    Assignments". *)
Definition recentAssignments (assignments : list Assignment.t)
    (selectedCourse : option Z) : list Assignment.t :=
  firstn 10 (courseAssignments assignments selectedCourse).

(** An assignment that enters the computation for the categories [cats]:
    of the selected course, completed, graded, and of one of [cats]. *)
Definition counts (cats : list GradeCategory.t) (selectedCourse : option Z)
    (a : Assignment.t) : bool :=
  strict_eq_Id (Assignment.courseId a) selectedCourse
  && Assignment.completed a
  && match Assignment.grade a with Some _ => true | None => false end
  && existsb
       (fun c => String.eqb (Assignment.category a) (GradeCategory.name c))
       cats.

End Grades.

(** ** The course record store ([courseService.js]) *)

Module courseService.

Local Open Scope Z_scope.

(** What a record holds: JSON data, so that writing the collection to the
    storage slot and parsing it back gives the same collection. Numbers are
    integers, as Ids are; the store computes with no other number. *)
Inductive value :=
| VNull
| VBool (b : bool)
| VNum (z : Z)
| VStr (s : string)
| VArr (l : list value)
| VObj (fields : gmap string value).

(** A JavaScript object: its own properties by name. *)
Abbreviation obj := (gmap string value).

(** ToBoolean, as [||] applies it. *)
Definition truthy (v : value) : bool :=
  match v with
  | VNull => false
  | VBool b => b
  | VNum z => negb (Z.eqb z 0)
  | VStr s => negb (String.eqb s "")
  | VArr _ | VObj _ => true
  end.

(** *** Integers as binary64 Numbers *)

(** The binary64 value nearest to an integer, ties to the even mantissa:
    integers up to 2^53 are kept, larger ones keep their 53 leading bits. *)
Definition round64 (z : Z) : Z :=
  let a := Z.abs z in
  if a <? 2 ^ 53 then z
  else
    let e := Z.log2 a - 52 in
    let q := a / 2 ^ e in
    let r := a mod 2 ^ e in
    let half := 2 ^ (e - 1) in
    let q' := if (half <? r) || ((r =? half) && Z.odd q) then q + 1 else q in
    Z.sgn z * (q' * 2 ^ e).

(** The Number of a mathematical integer; [None] when it is an infinity. *)
Definition to_Number (z : Z) : option Z :=
  let x := round64 z in
  if Z.abs x <? 2 ^ 1024 then Some x else None.

(** *** [parseInt]

    A string is a sequence of code units below 256. *)

(** White space and line terminators: TAB, LF, VT, FF, CR, SP, NBSP. *)
Definition is_white (c : ascii) : bool :=
  let n := N_of_ascii c in
  ((9 <=? n) && (n <=? 13) || (n =? 32) || (n =? 160))%N.

Fixpoint trim_start (s : string) : string :=
  match s with
  | String c s' => if is_white c then trim_start s' else s
  | EmptyString => s
  end.

(** The value of a digit of the given radix: [0-9], then [a-z] or [A-Z]. *)
Definition digit_of (radix : Z) (c : ascii) : option Z :=
  let n := Z.of_N (N_of_ascii c) in
  let d :=
    if (48 <=? n) && (n <=? 57) then Some (n - 48)
    else if (97 <=? n) && (n <=? 122) then Some (n - 87)
    else if (65 <=? n) && (n <=? 90) then Some (n - 55)
    else None in
  match d with
  | Some d => if d <? radix then Some d else None
  | None => None
  end.

(** The integer of the longest prefix of digits; [acc] is [None] until a
    digit was read. *)
Fixpoint parse_digits (radix : Z) (s : string) (acc : option Z) : option Z :=
  match s with
  | String c s' =>
      match digit_of radix c with
      | Some d =>
          parse_digits radix s'
            (Some (match acc with Some a => a * radix + d | None => d end))
      | None => acc
      end
  | EmptyString => acc
  end.

(** [parseInt(string)] with no radix argument. [None]: NaN or an infinity,
    which no stored Id equals. *)
Definition parseInt (inputString : string) : option Z :=
  let s := trim_start inputString in
  let '(sign, s) :=
    match s with
    | String "-" r => (-1, r)
    | String "+" r => (1, r)
    | _ => (1, s)
    end in
  let '(R, s) :=
    match s with
    | String "0" (String "x" r) => (16, r)
    | String "0" (String "X" r) => (16, r)
    | _ => (10, s)
    end in
  match parse_digits R s None with
  | Some mathInt => to_Number (sign * mathInt)
  | None => None
  end.

(** What follows the leading white space and one sign. *)
Definition after_sign (s : string) : string :=
  match trim_start s with
  | String "-" r => r
  | String "+" r => r
  | r => r
  end.

(** A string that shows no decimal digit after its leading white space and
    sign: ["abc"], [""], ["-"], ["x12"]. *)
Definition no_leading_digit (s : string) : bool :=
  match after_sign s with
  | String c _ =>
      match digit_of 10 c with Some _ => false | None => true end
  | EmptyString => true
  end.

(** The [id] argument of [getById], [update] and [delete]: a string (a
    route parameter, say) or an integer Number, [IdNum z] being the Number
    that the literal [z] denotes. Any other argument acts as the string that
    ToString makes of it ([undefined] as ["undefined"]). *)
Inductive idArg :=
| IdStr (s : string)
| IdNum (z : Z).

(** The decimal numeral of an integer. *)
Definition numeral (z : Z) : string := NilZero.string_of_int (Z.to_int z).

(** Among the decimals of [k] significant digits, the one nearest to the
    Number [a] (of [n] digits) that still denotes [a], if there is one; the
    even one on a tie. *)
Definition shortest_at (a n k : Z) : option Z :=
  let p := 10 ^ (n - k) in
  let lo := (a / p) * p in
  let hi := lo + p in
  let oklo := round64 lo =? a in
  let okhi := round64 hi =? a in
  if oklo && okhi then
    if a - lo <? hi - a then Some lo
    else if hi - a <? a - lo then Some hi
    else if Z.even (a / p) then Some lo else Some hi
  else if oklo then Some lo
  else if okhi then Some hi
  else None.

(** The decimal of fewest significant digits that denotes [a], tried from
    [k] digits on; 17 digits always suffice. *)
Fixpoint shortest (fuel : nat) (a n k : Z) : Z :=
  match fuel with
  | O => a
  | S fuel' =>
      match shortest_at a n k with
      | Some v => v
      | None => shortest fuel' a n (k + 1)
      end
  end.

Fixpoint strip_zeros (s : string) : string :=
  match s with
  | String c r =>
      let r' := strip_zeros r in
      if Ascii.eqb c "0" && String.eqb r' "" then EmptyString
      else String c r'
  | EmptyString => EmptyString
  end.

(** The exponent form of a digit sequence: a point after the first digit,
    trailing zeros dropped, and the decimal exponent, as in
    ["1.1805916207174113e+21"]. *)
Definition exponent_form (digits : string) : string :=
  let e := Z.of_nat (String.length digits) - 1 in
  match digits with
  | String d rest =>
      let frac := strip_zeros rest in
      String.append
        (String d
           (if String.eqb frac "" then EmptyString
            else String.append "." frac))
        (String.append "e+" (numeral e))
  | EmptyString => EmptyString
  end.

(** How a positive integer Number prints: its shortest digits followed by
    zeros while these are at most 21 digits, in exponent form beyond. *)
Definition print_integer (a : Z) : string :=
  let n := Z.of_nat (String.length (numeral a)) in
  let digits := numeral (shortest 17 a n 1) in
  if Z.of_nat (String.length digits) <=? 21 then digits
  else exponent_form digits.

(** ToString, which [parseInt] applies to its argument. An integer below
    2^53 is its own shortest decimal and prints as its numeral. *)
Definition ToString (id : idArg) : string :=
  match id with
  | IdStr s => s
  | IdNum z =>
      match to_Number z with
      | Some x =>
          if Z.abs x <? 2 ^ 53 then numeral x
          else String.append (if x <? 0 then "-" else EmptyString)
                 (print_integer (Z.abs x))
      | None => if z <? 0 then "-Infinity" else "Infinity"
      end
  end.

(** [c.Id === n] for the Number [n = parseInt(id)]: strict equality, which
    NaN never satisfies. *)
Definition Id_is (n : option Z) (c : obj) : bool :=
  match n, c !! "Id" with
  | Some n, Some (VNum z) => Z.eqb z n
  | _, _ => false
  end.

(** *** The storage slot and the bundled data *)

(** [coursesData]: the array imported from the bundled JSON module;
    [localStorage]: the slot [STORAGE_KEY], parsed, [None] while unset. *)
Record storage := mkStorage
  { coursesData : list obj; localStorage : option (list obj) }.

Definition getStoredCourses (st : storage) : list obj :=
  match localStorage st with
  | Some stored => stored
  | None => coursesData st
  end.

Definition saveCourses (st : storage) (courses : list obj) : storage :=
  mkStorage (coursesData st) (Some courses).

(** An array obtained from [getStoredCourses] and then changed in place:
    while the slot is unset that array is [coursesData] itself. *)
Definition mutate (st : storage) (courses : list obj) : storage :=
  match localStorage st with
  | Some _ => st
  | None => mkStorage courses None
  end.

(** *** The operations: [storage -> result * storage]

    The delay before each operation changes no result and is left out. *)

Definition getAll (st : storage) : list obj * storage :=
  (getStoredCourses st, st).

(** [None] is [null]. *)
Definition getById (st : storage) (id : idArg) : option obj * storage :=
  let courses := getStoredCourses st in
  (List.find (Id_is (parseInt (ToString id))) courses, st).

(** [Math.max(max, c.Id)] on integers. [None]: [c.Id] is not an integer,
    which the data model excludes. *)
Definition Math_max_Id (max : option Z) (c : obj) : option Z :=
  match max, c !! "Id" with
  | Some m, Some (VNum z) => Some (Z.max m z)
  | _, _ => None
  end.

(** [courses.reduce((max, c) => Math.max(max, c.Id), 0)] *)
Definition maxId (courses : list obj) : option Z :=
  fold_left Math_max_Id courses (Some 0).

(** [course.gradeCategories || []] *)
Definition gradeCategories_or_empty (course : obj) : value :=
  match course !! "gradeCategories" with
  | Some v => if truthy v then v else VArr []
  | None => VArr []
  end.

(** [maxId + 1] is a binary64 sum. [None]: a stored record has no integer
    Id. *)
Definition create (st : storage) (course : obj) : option (obj * storage) :=
  let courses := getStoredCourses st in
  match maxId courses with
  | Some maxId =>
      let newCourse :=
        <["gradeCategories" := gradeCategories_or_empty course]>
          (<["Id" := VNum (round64 (maxId + 1))]> course) in
      let courses := courses ++ [newCourse] in
      Some (newCourse, saveCourses (mutate st courses) courses)
  | None => None
  end.

(** [courses.findIndex(p)]; [None] is [-1]. *)
Fixpoint findIndex {A} (p : A -> bool) (l : list A) : option nat :=
  match l with
  | [] => None
  | x :: l' => if p x then Some 0%nat else option_map S (findIndex p l')
  end.

(** [None] is [null]. [index] comes from [findIndex], so [courses[index]]
    is there. *)
Definition update (st : storage) (id : idArg) (data : obj)
  : option obj * storage :=
  let courses := getStoredCourses st in
  match findIndex (Id_is (parseInt (ToString id))) courses with
  | Some index =>
      match courses !! index with
      | Some c =>
          let courses := <[index := data ∪ c]> courses in
          (courses !! index, saveCourses (mutate st courses) courses)
      | None => (None, st)
      end
  | None => (None, st)
  end.

Definition delete (st : storage) (id : idArg) : bool * storage :=
  let courses := getStoredCourses st in
  let filtered :=
    List.filter (fun c => negb (Id_is (parseInt (ToString id)) c)) courses in
  (true, saveCourses st filtered).

(** *** Sequences of calls *)

Inductive call :=
| GetAll
| GetById (id : idArg)
| Create (course : obj)
| Update (id : idArg) (data : obj)
| Delete (id : idArg).

(** The storage a call leaves behind. *)
Definition after (st : storage) (c : call) : option storage :=
  match c with
  | GetAll => Some (snd (getAll st))
  | GetById id => Some (snd (getById st id))
  | Create course => option_map snd (create st course)
  | Update id data => Some (snd (update st id data))
  | Delete id => Some (snd (delete st id))
  end.

Fixpoint after_all (st : storage) (calls : list call) : option storage :=
  match calls with
  | [] => Some st
  | c :: calls' =>
      match after st c with
      | Some st' => after_all st' calls'
      | None => None
      end
  end.

(** Successive [create] calls, with the records they return. *)
Fixpoint create_all (st : storage) (inputs : list obj)
  : option (list obj * storage) :=
  match inputs with
  | [] => Some ([], st)
  | course :: inputs' =>
      match create st course with
      | Some (r, st') =>
          match create_all st' inputs' with
          | Some (rs, st'') => Some (r :: rs, st'')
          | None => None
          end
      | None => None
      end
  end.

(** *** The data model of the stored collection *)

(** The Id of a record, when it is an integer. *)
Definition Id_int (c : obj) : option Z :=
  match c !! "Id" with
  | Some (VNum z) => Some z
  | _ => None
  end.

Definition integer_Ids (courses : list obj) : Prop :=
  Forall (fun c => is_Some (Id_int c)) courses.

Definition positive_Ids (courses : list obj) : Prop :=
  Forall (fun c => exists z, Id_int c = Some z /\ 0 < z) courses.

(** Every record has an integer Id, and no two records share one. *)
Definition unique_Ids (courses : list obj) : Prop :=
  integer_Ids courses /\ NoDup (Id_int <$> courses).

(** [m] is the greatest Id of the collection. *)
Definition is_max_Id (courses : list obj) (m : Z) : Prop :=
  Some m ∈ Id_int <$> courses
  /\ forall z, Some z ∈ Id_int <$> courses -> z <= m.

(** No stored Id reaches [bound]. *)
Definition Ids_below (bound : Z) (courses : list obj) : Prop :=
  forall z, Some z ∈ Id_int <$> courses -> z < bound.

(** Every record has a safe integer Id: one below 2^53 in absolute value,
    where binary64 holds every integer. *)
Definition safe_Ids (courses : list obj) : Prop :=
  Forall (fun c => exists z, Id_int c = Some z /\ Z.abs z < 2 ^ 53) courses.

(** An [update] whose data leaves the Id of the record alone: it has no
    [Id] field, or names the Id that was looked up, or a safe integer that
    no stored record carries. *)
Definition Id_kept (courses : list obj) (id : idArg) (data : obj) : Prop :=
  match data !! "Id" with
  | None => True
  | Some v =>
      exists z, v = VNum z
        /\ Z.abs z < 2 ^ 53
        /\ (parseInt (ToString id) = Some z
            \/ Some z ∉ Id_int <$> courses)
  end.

(** A call that keeps Ids distinct: an [update] as above, a [create] while
    every stored Id is below 2^53 - 1. *)
Definition admissible (st : storage) (c : call) : Prop :=
  match c with
  | Update id data => Id_kept (getStoredCourses st) id data
  | Create _ => Ids_below (2 ^ 53 - 1) (getStoredCourses st)
  | _ => True
  end.

Fixpoint admissible_all (st : storage) (calls : list call) : Prop :=
  match calls with
  | [] => True
  | c :: calls' =>
      admissible st c
      /\ match after st c with
         | Some st' => admissible_all st' calls'
         | None => True
         end
  end.

(** A string that is a decimal numeral throughout: an optional sign and
    then digits only. *)
Definition is_numeral (s : string) : bool :=
  let digits :=
    match s with
    | String "-" r => r
    | String "+" r => r
    | _ => s
    end in
  match digits with
  | EmptyString => false
  | _ =>
      match NilEmpty.uint_of_string digits with
      | Some _ => true
      | None => false
      end
  end.

(** One record, whose Id is 2^53. *)
Definition store_at_2_53 : storage :=
  mkStorage []
    (Some [ {[ "Id" := VNum 9007199254740992; "code" := VStr "CS101" ]} ]).

(** Two records with Ids 1 and 2. *)
Definition two_courses : storage :=
  mkStorage []
    (Some [ {[ "Id" := VNum 1; "code" := VStr "CS101" ]};
            {[ "Id" := VNum 2; "code" := VStr "MA201" ]} ]).

End courseService.

(** * Properties of the grade aggregator *)

Section GradesProperties.

Import JS Grades.
Local Open Scope float_scope.

Example Math_round_samples :
  List.map Math_round
    [2.5; 3.5; 2.4; 0.5; 0.49999999999999994; 852.5; -2.5; -3.7; 7; 0;
     4503599627370495.5; 4503599627370497]
  = [3; 4; 2; 1; 0; 853; -2; -4; 7; 0; 4503599627370496; 4503599627370497].
Proof. vm_compute. reflexivity. Qed.

Example Math_round_negative_zero :
  List.map Math_round [-0.5; -0.3; -0] = [neg_zero; neg_zero; neg_zero].
Proof. vm_compute. reflexivity. Qed.

Example Math_round_not_finite :
  List.map Math_round [infinity; neg_infinity; nan]
  = [infinity; neg_infinity; nan].
Proof. vm_compute. reflexivity. Qed.

(** C1. On the worked example (Homework 40 with grades 90 and 80, Exams 60
    with grade 70) the aggregator yields Homework average 85 and weighted
    score 34, Exams average 70 and weighted score 42, total weight 100,
    adjusted grade 76, displayed as 76. *)
Theorem aggregation_example :
  categoryGrades [example_course] example_assignments (Some 1%Z)
  = [CategoryGrade.mk "Homework" 40 85 2 34;
     CategoryGrade.mk "Exams" 60 70 1 42]
  /\ currentGrade
       (categoryGrades [example_course] example_assignments (Some 1%Z)) = 76
  /\ totalWeight
       (categoryGrades [example_course] example_assignments (Some 1%Z)) = 100
  /\ adjustedGrade [example_course] example_assignments (Some 1%Z) = 76
  /\ displayedGrade [example_course] example_assignments (Some 1%Z) = 76.
Proof. vm_compute. repeat split; reflexivity. Qed.

(** The reduction over assignments is the left sum of their grades. *)
Lemma sum_grades_fold (cas : list Assignment.t) (acc : float) :
  fold_left (fun sum a => sum + grade_num a) cas acc
  = fold_left add (List.map grade_num cas) acc.
Proof.
  revert acc. induction cas as [|a cas IH]; intros acc; simpl; [reflexivity|].
  apply IH.
Qed.

Lemma currentGrade_fold (cgs : list CategoryGrade.t) (acc : float) :
  fold_left (fun sum cat => sum + CategoryGrade.weightedScore cat) cgs acc
  = fold_left add (List.map CategoryGrade.weightedScore cgs) acc.
Proof.
  revert acc. induction cgs as [|g cgs IH]; intros acc; simpl; [reflexivity|].
  apply IH.
Qed.

(** C2, as the code has it. For a category with at least one matching
    graded assignment, the average is the mean rounded to one decimal place
    and the weighted score is mean * weight / 100 rounded to one decimal
    place, computed from the mean itself and not from the rounded average;
    currentGrade is the sum of these rounded weighted scores. *)
Theorem category_grade_rounding
    (cas : list Assignment.t) (category : GradeCategory.t)
    (cats : list GradeCategory.t) :
  categoryAssignments cas category <> [] ->
  let g := gradeOfCategory cas category in
  let grades := matching_grades cas category in
  CategoryGrade.count g = length grades
  /\ CategoryGrade.average g = round1 (mean grades)
  /\ CategoryGrade.weightedScore g
     = weightedScore_of_mean grades (GradeCategory.weight category)
  /\ currentGrade (List.map (gradeOfCategory cas) cats)
     = fold_left add
         (List.map
            (fun c => CategoryGrade.weightedScore (gradeOfCategory cas c)) cats)
         0.
Proof.
  intros Hne g grades. subst g grades.
  split; [|split; [|split]].
  4: { unfold currentGrade. rewrite currentGrade_fold, List.map_map.
       reflexivity. }
  all: unfold gradeOfCategory, matching_grades, weightedScore_of_mean, mean,
         round1;
       destruct (categoryAssignments cas category) as [|a l]; [congruence|];
       cbn [length Nat.eqb CategoryGrade.count CategoryGrade.average
            CategoryGrade.weightedScore];
       rewrite ?List.length_map, ?sum_grades_fold; reflexivity.
Qed.

Lemma category_grade_rounding_witness :
  categoryAssignments thirds_assignments thirds_category <> []
  /\ CategoryGrade.weightedScore
       (gradeOfCategory thirds_assignments thirds_category)
     = weightedScore_of_mean
         (matching_grades thirds_assignments thirds_category)
         (GradeCategory.weight thirds_category).
Proof.
  split; [vm_compute; discriminate|].
  apply (category_grade_rounding thirds_assignments thirds_category []).
  vm_compute; discriminate.
Defined.

(** C2 as worded fails: grades 80, 90, 90 at weight 80 have the rounded
    average 86.7 and the weighted score 69.3, where the score taken from the
    rounded average would be 69.4. *)
Lemma weightedScore_not_from_rounded_average :
  categoryAssignments thirds_assignments thirds_category <> []
  /\ CategoryGrade.average (gradeOfCategory thirds_assignments thirds_category)
     = 86.7
  /\ CategoryGrade.weightedScore
       (gradeOfCategory thirds_assignments thirds_category) = 69.3
  /\ weightedScore_of_rounded_average
       (matching_grades thirds_assignments thirds_category)
       (GradeCategory.weight thirds_category) = 69.4
  /\ CategoryGrade.weightedScore
       (gradeOfCategory thirds_assignments thirds_category)
     <> weightedScore_of_rounded_average
          (matching_grades thirds_assignments thirds_category)
          (GradeCategory.weight thirds_category).
Proof.
  split; [vm_compute; discriminate|].
  split; [vm_compute; reflexivity|].
  split; [vm_compute; reflexivity|].
  split; [vm_compute; reflexivity|].
  intros H. apply (f_equal (fun x => x =? 69.3)) in H.
  vm_compute in H. discriminate.
Qed.

(** A positive divisor is not zero. *)
Lemma positive_not_zero (t : float) : (0 <? t) = true -> (t =? 0) = false.
Proof.
  rewrite FloatAxioms.ltb_spec, FloatAxioms.eqb_spec.
  change (Prim2SF 0) with (S754_zero false).
  destruct (Prim2SF t) as [[|]|[|]| |[|] m e]; intros H;
    first [reflexivity | discriminate H].
Qed.

Lemma division_guarded (cgs : list CategoryGrade.t) :
  adjustedGradeOf_checked cgs = Some (adjustedGradeOf cgs).
Proof.
  unfold adjustedGradeOf_checked, adjustedGradeOf, checked_div.
  destruct (0 <? totalWeight cgs) eqn:E; [|reflexivity].
  rewrite (positive_not_zero _ E). reflexivity.
Qed.

Lemma totalWeight_no_counts (cgs : list CategoryGrade.t) :
  List.Forall (fun g => CategoryGrade.count g = 0%nat) cgs ->
  totalWeight cgs = 0.
Proof.
  unfold totalWeight. generalize 0 as acc.
  induction cgs as [|g cgs IH]; intros acc H; simpl; [reflexivity|].
  inversion H as [|? ? Hg Hrest]; subst. rewrite Hg. simpl. apply IH, Hrest.
Qed.

(** C10. When no category of the selected course has a matching graded
    assignment, totalWeight is 0 and adjustedGrade is 0; and on every input
    the division currentGrade / totalWeight is performed only under the
    guard totalWeight > 0, so its divisor is never zero. *)
Theorem adjustedGrade_zero_without_grades
    (courses : list Course.t) (assignments : list Assignment.t)
    (selectedCourse : option Z) :
  (forall c cats category,
      currentCourse courses selectedCourse = Some c ->
      Course.gradeCategories c = Some cats ->
      List.In category cats ->
      categoryAssignments (courseAssignments assignments selectedCourse)
        category = []) ->
  totalWeight (categoryGrades courses assignments selectedCourse) = 0
  /\ adjustedGrade courses assignments selectedCourse = 0
  /\ adjustedGradeOf_checked
       (categoryGrades courses assignments selectedCourse) = Some 0
  /\ (forall cgs, adjustedGradeOf_checked cgs = Some (adjustedGradeOf cgs)).
Proof.
  intros Hnone.
  assert (Htw : totalWeight (categoryGrades courses assignments selectedCourse)
                = 0).
  { apply totalWeight_no_counts.
    unfold categoryGrades, calculateGradeByCategory.
    destruct (currentCourse courses selectedCourse) as [c|] eqn:Ec;
      [|constructor].
    destruct (Course.gradeCategories c) as [cats|] eqn:Eg; [|constructor].
    apply List.Forall_forall. intros g Hg.
    apply List.in_map_iff in Hg. destruct Hg as [category [<- Hin]].
    unfold gradeOfCategory.
    rewrite (Hnone c cats category eq_refl Eg Hin). reflexivity. }
  assert (Hadj : adjustedGrade courses assignments selectedCourse = 0).
  { unfold adjustedGrade, adjustedGradeOf. rewrite Htw. reflexivity. }
  repeat split; try assumption.
  - rewrite division_guarded. f_equal. exact Hadj.
  - apply division_guarded.
Qed.

Lemma adjustedGrade_zero_without_grades_witness :
  adjustedGrade [example_course] [] (Some 1%Z) = 0.
Proof.
  apply (adjustedGrade_zero_without_grades [example_course] [] (Some 1%Z)).
  intros c cats category _ _ _. reflexivity.
Defined.

End GradesProperties.

(** * Properties of the course record store *)

Section StoreProperties.

Import courseService.
Local Open Scope Z_scope.

(** ** Reading back what was saved *)

Lemma stored_after_save (st : storage) (courses : list obj) :
  getStoredCourses (saveCourses st courses) = courses.
Proof. reflexivity. Qed.

Lemma stored_after_mutate (st : storage) (courses : list obj) :
  getStoredCourses (saveCourses (mutate st courses) courses) = courses.
Proof. reflexivity. Qed.

(** ** Matching a record against a parsed id *)

Lemma Id_is_NaN (c : obj) : Id_is None c = false.
Proof. reflexivity. Qed.

Lemma Id_is_true (n : option Z) (c : obj) :
  Id_is n c = true <-> exists z, n = Some z /\ Id_int c = Some z.
Proof.
  unfold Id_is, Id_int. destruct n as [n|].
  - destruct (c !! "Id") as [[| | z | | |]|]; split;
      try discriminate; try (intros [z' [_ H]]; discriminate H).
    + intros H. apply Z.eqb_eq in H. subst. eauto.
    + intros [z' [Hn Hz]]. inversion Hn; inversion Hz; subst.
      apply Z.eqb_refl.
  - split; [discriminate|]. intros [z [H _]]. discriminate H.
Qed.

Lemma find_never {A} (p : A -> bool) (l : list A) :
  (forall x, In x l -> p x = false) -> List.find p l = None.
Proof.
  induction l as [|x l IH]; intros H; simpl; [reflexivity|].
  rewrite (H x (or_introl eq_refl)). apply IH.
  intros y Hy. apply H. right. exact Hy.
Qed.

Lemma findIndex_None {A} (p : A -> bool) (l : list A) :
  findIndex p l = None <-> (forall x, In x l -> p x = false).
Proof.
  induction l as [|x l IH]; simpl.
  - split; [intros _ y []|reflexivity].
  - destruct (p x) eqn:Ex.
    + split; [discriminate|]. intros H.
      rewrite (H x (or_introl eq_refl)) in Ex. discriminate Ex.
    + destruct (findIndex p l) as [i|]; simpl.
      * split; [discriminate|]. intros H.
        assert (Hn : Some i = None); [|discriminate Hn].
        apply IH. intros y Hy. apply H. now right.
      * split; [|reflexivity]. intros _ y [<-|Hy]; [exact Ex|].
        apply IH; [reflexivity|exact Hy].
Qed.

Lemma findIndex_Some {A} (p : A -> bool) (l : list A) (i : nat) :
  findIndex p l = Some i ->
  exists x, l !! i = Some x /\ p x = true
            /\ forall j y, (j < i)%nat -> l !! j = Some y -> p y = false.
Proof.
  revert i. induction l as [|x l IH]; intros i; simpl; [discriminate|].
  destruct (p x) eqn:Ex.
  - intros [= <-]. exists x. repeat split; [exact Ex|]. intros j y Hj. lia.
  - destruct (findIndex p l) as [i'|]; simpl; [|discriminate].
    intros [= <-]. destruct (IH i' eq_refl) as [y [Hy [Hp Hfirst]]].
    exists y. repeat split; [exact Hy|exact Hp|].
    intros [|j] z Hj Hz; simpl in Hz.
    + inversion Hz; subst. exact Ex.
    + apply (Hfirst j z); [lia|exact Hz].
Qed.

(** ** The operations on small stores *)

Example parseInt_samples :
  List.map parseInt ["12"; " 12abc"; "-7"; "+0x1F"; "007"; "abc"; ""; "0x"; "-"]
  = [Some 12; Some 12; Some (-7); Some 31; Some 7; None; None; None; None].
Proof. reflexivity. Qed.

Example ToString_samples :
  List.map (fun z => ToString (IdNum z)) [0; 5; -12; 1000]
  = ["0"; "5"; "-12"; "1000"]%string.
Proof. reflexivity. Qed.

(** Beyond 2^53 a Number is the nearest binary64 value; it prints with its
    shortest digits, and in exponent form from 10^21 on, of which parseInt
    reads the first digit only. *)
Example Number_samples :
  parseInt "9007199254740993" = Some 9007199254740992
  /\ List.map (fun z => ToString (IdNum z))
       [2 ^ 53; 2 ^ 53 + 1; 2 ^ 60; 10 ^ 21; 2 ^ 70; - 10 ^ 21]
     = ["9007199254740992"; "9007199254740992"; "1152921504606847000";
        "1e+21"; "1.1805916207174113e+21"; "-1e+21"]%string
  /\ parseInt (ToString (IdNum (10 ^ 21))) = Some 1.
Proof. vm_compute. repeat split. Qed.

Example create_on_empty_store :
  create (mkStorage [] None) {[ "code" := VStr "CS101" ]}
  = Some ({[ "Id" := VNum 1; "code" := VStr "CS101";
             "gradeCategories" := VArr [] ]},
          mkStorage
            [ {[ "Id" := VNum 1; "code" := VStr "CS101";
                 "gradeCategories" := VArr [] ]} ]
            (Some [ {[ "Id" := VNum 1; "code" := VStr "CS101";
                       "gradeCategories" := VArr [] ]} ])).
Proof. vm_compute. reflexivity. Qed.

Example create_overrides_given_Id :
  option_map (fun p => fst p !! "Id")
    (create two_courses {[ "Id" := VNum 1; "code" := VStr "PH301" ]})
  = Some (Some (VNum 3)).
Proof. vm_compute. reflexivity. Qed.

Example getById_sample :
  fst (getById two_courses (IdStr "2"))
  = Some {[ "Id" := VNum 2; "code" := VStr "MA201" ]}.
Proof. vm_compute. reflexivity. Qed.

(** A string with leading digits is read by these digits. *)
Example getById_numeric_prefix :
  fst (getById two_courses (IdStr " 2abc"))
  = Some {[ "Id" := VNum 2; "code" := VStr "MA201" ]}.
Proof. vm_compute. reflexivity. Qed.

Example update_sample :
  getStoredCourses
    (snd (update two_courses (IdNum 1) {[ "code" := VStr "CS102" ]}))
  = [ {[ "Id" := VNum 1; "code" := VStr "CS102" ]};
      {[ "Id" := VNum 2; "code" := VStr "MA201" ]} ].
Proof. vm_compute. reflexivity. Qed.

Example delete_sample :
  getStoredCourses (snd (delete two_courses (IdStr "1")))
  = [ {[ "Id" := VNum 2; "code" := VStr "MA201" ]} ].
Proof. vm_compute. reflexivity. Qed.

(** ** getById *)

(** A character that is no decimal digit starts no numeral, with or
    without the [0x] prefix. *)
Lemma parse_no_digit (c : ascii) (r : string) (sign : Z) :
  digit_of 10 c = None ->
  (let '(R, s) :=
     match String c r with
     | String "0" (String "x" r') => (16, r')
     | String "0" (String "X" r') => (16, r')
     | _ => (10, String c r)
     end in
   match parse_digits R s None with
   | Some mathInt => to_Number (sign * mathInt)
   | None => None
   end) = None.
Proof.
  destruct c as [[|] [|] [|] [|] [|] [|] [|] [|]]; intros H;
    first [discriminate H | reflexivity].
Qed.

(** Without a leading digit, [parseInt] gives NaN. *)
Lemma no_leading_digit_NaN (s : string) :
  no_leading_digit s = true -> parseInt s = None.
Proof.
  unfold no_leading_digit, after_sign, parseInt.
  destruct (trim_start s) as [|c r]; [reflexivity|].
  assert (Hrest : forall c' r' sign,
             match digit_of 10 c' with Some _ => false | None => true end
             = true ->
             (let '(R, s) :=
                match String c' r' with
                | String "0" (String "x" r'') => (16, r'')
                | String "0" (String "X" r'') => (16, r'')
                | _ => (10, String c' r')
                end in
              match parse_digits R s None with
              | Some mathInt => to_Number (sign * mathInt)
              | None => None
              end) = None).
  { intros c' r' sign H. apply parse_no_digit.
    destruct (digit_of 10 c'); [discriminate H|reflexivity]. }
  destruct (Ascii.eqb_spec c "-") as [->|Hm].
  { destruct r as [|c' r']; [reflexivity|]. apply Hrest. }
  destruct (Ascii.eqb_spec c "+") as [->|Hp].
  { destruct r as [|c' r']; [reflexivity|]. apply Hrest. }
  clear Hrest.
  destruct c as [[|] [|] [|] [|] [|] [|] [|] [|]]; try congruence;
    intros H; first [discriminate H | reflexivity].
Qed.

(** C5. An id that [parseInt] reads as NaN, as it does every string
    without a leading digit, matches no record: whatever the stored
    collection, [getById] returns [null] and changes nothing. *)
Theorem getById_non_numeric (st : storage) (id : idArg) :
  parseInt (ToString id) = None ->
  getById st id = (None, st)
  /\ (forall s, no_leading_digit s = true ->
                getById st (IdStr s) = (None, st)).
Proof.
  assert (HNaN : forall id', parseInt (ToString id') = None ->
                             getById st id' = (None, st)).
  { intros id' Hs. unfold getById. rewrite Hs.
    rewrite find_never; [reflexivity|]. intros c _. apply Id_is_NaN. }
  intros Hid. split; [apply HNaN, Hid|].
  intros s Hs. apply HNaN. apply no_leading_digit_NaN, Hs.
Qed.

Lemma getById_non_numeric_witness :
  parseInt "abc" = None
  /\ getById two_courses (IdStr "abc") = (None, two_courses).
Proof.
  split; [reflexivity|].
  apply (proj1 (getById_non_numeric two_courses (IdStr "abc") eq_refl)).
Defined.

(** C5 as worded fails: the id "2abc" is no numeral, yet parseInt reads
    its leading digit, and getById returns the record whose Id is 2. *)
Lemma getById_digit_prefix :
  is_numeral "2abc" = false
  /\ parseInt "2abc" = Some 2
  /\ getById two_courses (IdStr "2abc")
     = (Some {[ "Id" := VNum 2; "code" := VStr "MA201" ]}, two_courses).
Proof.
  split; [reflexivity|]. split; [reflexivity|]. vm_compute. reflexivity.
Qed.

(** ** update *)

Lemma update_not_found (st : storage) (id : idArg) (data : obj) :
  findIndex (Id_is (parseInt (ToString id))) (getStoredCourses st) = None ->
  update st id data = (None, st).
Proof. intros H. unfold update. rewrite H. reflexivity. Qed.

Lemma update_found (st : storage) (id : idArg) (data : obj) (index : nat) :
  findIndex (Id_is (parseInt (ToString id))) (getStoredCourses st)
  = Some index ->
  exists c,
    getStoredCourses st !! index = Some c
    /\ Id_is (parseInt (ToString id)) c = true
    /\ update st id data
       = (Some (data ∪ c),
          saveCourses
            (mutate st (<[index := data ∪ c]> (getStoredCourses st)))
            (<[index := data ∪ c]> (getStoredCourses st))).
Proof.
  intros H. destruct (findIndex_Some _ _ _ H) as [c [Hc [Hp _]]].
  exists c. repeat split; [exact Hc|exact Hp|].
  unfold update. rewrite H, Hc. cbv zeta.
  rewrite list_lookup_insert_eq; [reflexivity|].
  apply lookup_lt_Some in Hc. exact Hc.
Qed.

(** C6. When [update] locates a record, the record it stores and returns
    has the value of [data] at every field of [data] and the prior value at
    every other field; it replaces the located record in place and every
    other record of the collection is unchanged. *)
Theorem update_changes_only_given_fields
    (st st' : storage) (id : idArg) (data r : obj) :
  update st id data = (Some r, st') ->
  exists index c,
    getStoredCourses st !! index = Some c
    /\ Id_is (parseInt (ToString id)) c = true
    /\ (forall k v, data !! k = Some v -> r !! k = Some v)
    /\ (forall k, data !! k = None -> r !! k = c !! k)
    /\ getStoredCourses st' !! index = Some r
    /\ length (getStoredCourses st') = length (getStoredCourses st)
    /\ (forall j, j <> index ->
          getStoredCourses st' !! j = getStoredCourses st !! j).
Proof.
  intros Hupd.
  destruct (findIndex (Id_is (parseInt (ToString id))) (getStoredCourses st))
    as [index|] eqn:Hfind.
  - destruct (update_found st id data index Hfind) as [c [Hc [Hp Heq]]].
    rewrite Heq in Hupd. inversion Hupd; subst r st'. clear Hupd.
    exists index, c. rewrite stored_after_mutate.
    repeat split; [exact Hc|exact Hp| | | | |].
    + intros k v Hk. apply lookup_union_Some_l. exact Hk.
    + intros k Hk. apply lookup_union_r. exact Hk.
    + apply list_lookup_insert_eq. apply lookup_lt_Some in Hc. exact Hc.
    + apply length_insert.
    + intros j Hj. apply list_lookup_insert_ne. congruence.
  - rewrite (update_not_found st id data Hfind) in Hupd. discriminate Hupd.
Qed.

Lemma update_changes_only_given_fields_witness :
  exists index c,
    getStoredCourses two_courses !! index = Some c
    /\ Id_is (Some 2) c = true
    /\ (forall k v,
          ({[ "code" := VStr "MA202" ]} : obj) !! k = Some v ->
          ({[ "Id" := VNum 2; "code" := VStr "MA202" ]} : obj) !! k = Some v)
    /\ (forall k,
          ({[ "code" := VStr "MA202" ]} : obj) !! k = None ->
          ({[ "Id" := VNum 2; "code" := VStr "MA202" ]} : obj) !! k = c !! k)
    /\ getStoredCourses (snd (update two_courses (IdStr "2")
                                {[ "code" := VStr "MA202" ]})) !! index
       = Some {[ "Id" := VNum 2; "code" := VStr "MA202" ]}
    /\ length (getStoredCourses (snd (update two_courses (IdStr "2")
                                        {[ "code" := VStr "MA202" ]})))
       = length (getStoredCourses two_courses)
    /\ (forall j, j <> index ->
          getStoredCourses (snd (update two_courses (IdStr "2")
                                   {[ "code" := VStr "MA202" ]})) !! j
          = getStoredCourses two_courses !! j).
Proof.
  apply (update_changes_only_given_fields two_courses
           (snd (update two_courses (IdStr "2") {[ "code" := VStr "MA202" ]}))
           (IdStr "2") {[ "code" := VStr "MA202" ]}
           {[ "Id" := VNum 2; "code" := VStr "MA202" ]}).
  vm_compute. reflexivity.
Defined.

(** C7. [update] is all or nothing: when no stored record matches the
    parsed id it returns [null] and the storage is left as it was; when a
    record matches, the first such record is merged with the whole of
    [data], the merged collection is written to the slot, and the merged
    record is returned. *)
Theorem update_all_or_nothing (st : storage) (id : idArg) (data : obj) :
  ((forall c, In c (getStoredCourses st) ->
              Id_is (parseInt (ToString id)) c = false) ->
   update st id data = (None, st))
  /\ ((exists c, In c (getStoredCourses st)
                 /\ Id_is (parseInt (ToString id)) c = true) ->
      exists index c,
        getStoredCourses st !! index = Some c
        /\ Id_is (parseInt (ToString id)) c = true
        /\ fst (update st id data) = Some (data ∪ c)
        /\ localStorage (snd (update st id data))
           = Some (<[index := data ∪ c]> (getStoredCourses st))).
Proof.
  split.
  - intros H. apply update_not_found. apply findIndex_None. exact H.
  - intros [c0 [Hin Hp]].
    destruct (findIndex (Id_is (parseInt (ToString id))) (getStoredCourses st))
      as [index|] eqn:Hfind.
    + destruct (update_found st id data index Hfind) as [c [Hc [Hpc Heq]]].
      exists index, c. rewrite Heq. repeat split; assumption.
    + rewrite findIndex_None in Hfind. rewrite (Hfind c0 Hin) in Hp.
      discriminate Hp.
Qed.

Lemma update_all_or_nothing_witness :
  update two_courses (IdStr "7") {[ "code" := VStr "X" ]} = (None, two_courses)
  /\ exists index c,
       getStoredCourses two_courses !! index = Some c
       /\ Id_is (Some 2) c = true
       /\ fst (update two_courses (IdStr "2") {[ "code" := VStr "X" ]})
          = Some ({[ "code" := VStr "X" ]} ∪ c)
       /\ localStorage
            (snd (update two_courses (IdStr "2") {[ "code" := VStr "X" ]}))
          = Some (<[index := {[ "code" := VStr "X" ]} ∪ c]>
                    (getStoredCourses two_courses)).
Proof.
  split.
  - apply (update_all_or_nothing two_courses (IdStr "7")).
    intros c [<-|[<-|[]]]; reflexivity.
  - apply (update_all_or_nothing two_courses (IdStr "2")).
    exists {[ "Id" := VNum 2; "code" := VStr "MA201" ]}.
    split; [right; left; reflexivity|reflexivity].
Defined.

(** ** delete *)

Lemma filter_twice {A} (p : A -> bool) (l : list A) :
  List.filter p (List.filter p l) = List.filter p l.
Proof.
  induction l as [|x l IH]; simpl; [reflexivity|].
  destruct (p x) eqn:Ex; simpl; [rewrite Ex, IH|]; auto.
Qed.

(** C8. [delete], whatever the id, returns [true] and leaves exactly the
    prior records that do not match the parsed id, in their order; a second
    [delete] of the same id returns [true] again and leaves the storage as
    the first one left it. *)
Theorem delete_idempotent (st : storage) (id : idArg) :
  fst (delete st id) = true
  /\ getStoredCourses (snd (delete st id))
     = List.filter (fun c => negb (Id_is (parseInt (ToString id)) c))
         (getStoredCourses st)
  /\ (forall c, In c (getStoredCourses (snd (delete st id)))
                <-> In c (getStoredCourses st)
                    /\ Id_is (parseInt (ToString id)) c = false)
  /\ fst (delete (snd (delete st id)) id) = true
  /\ snd (delete (snd (delete st id)) id) = snd (delete st id).
Proof.
  split; [reflexivity|]. split; [reflexivity|].
  split; [|split; [reflexivity|]].
  - intros c.
    change (getStoredCourses (snd (delete st id)))
      with (List.filter (fun c => negb (Id_is (parseInt (ToString id)) c))
              (getStoredCourses st)).
    rewrite List.filter_In, negb_true_iff. reflexivity.
  - unfold delete. cbn [snd]. rewrite stored_after_save, filter_twice.
    reflexivity.
Qed.

(** ** The greatest Id and create *)

Lemma Id_int_Some (c : obj) (z : Z) :
  Id_int c = Some z <-> c !! "Id" = Some (VNum z).
Proof.
  unfold Id_int. destruct (c !! "Id") as [[| | z' | | |]|]; split;
    intros H; inversion H; reflexivity.
Qed.

Lemma Math_max_Id_int (m : Z) (c : obj) (z : Z) :
  Id_int c = Some z -> Math_max_Id (Some m) c = Some (Z.max m z).
Proof.
  intros H. apply Id_int_Some in H. unfold Math_max_Id. rewrite H.
  reflexivity.
Qed.

(** The reduction from [a]: an upper bound of [a] and of every Id, reached
    by [a] or by an Id. *)
Lemma maxId_from (courses : list obj) (a : Z) :
  integer_Ids courses ->
  exists m,
    fold_left Math_max_Id courses (Some a) = Some m
    /\ a <= m
    /\ (forall z, Some z ∈ Id_int <$> courses -> z <= m)
    /\ (m = a \/ Some m ∈ Id_int <$> courses).
Proof.
  revert a. induction courses as [|c l IH]; intros a Hint.
  - exists a. simpl. repeat split; [lia| |left; reflexivity].
    intros z Hz. apply elem_of_nil in Hz. destruct Hz.
  - inversion Hint as [|? ? [z Hz] Hl]; subst.
    destruct (IH (Z.max a z) Hl) as [m [Hm [Hle [Hub Hin]]]].
    exists m. cbn [fold_left]. rewrite fmap_cons.
    rewrite (Math_max_Id_int a c z Hz), Hz.
    repeat split; [exact Hm|lia| |].
    + intros z' Hz'. apply elem_of_cons in Hz'.
      destruct Hz' as [Hz'|Hz']; [inversion Hz'; subst; lia|apply Hub, Hz'].
    + destruct Hin as [->|Hin]; [|right; apply elem_of_cons; right; exact Hin].
      destruct (Z.max_spec a z) as [[_ ->]|[_ ->]];
        [right; apply elem_of_cons; left; reflexivity|left; reflexivity].
Qed.

Lemma maxId_defined (courses : list obj) :
  integer_Ids courses ->
  exists m,
    maxId courses = Some m
    /\ 0 <= m
    /\ (forall z, Some z ∈ Id_int <$> courses -> z <= m)
    /\ (m = 0 \/ Some m ∈ Id_int <$> courses).
Proof. apply maxId_from. Qed.

Lemma maxId_snoc (courses : list obj) (r : obj) (m z : Z) :
  maxId courses = Some m -> Id_int r = Some z ->
  maxId (courses ++ [r]) = Some (Z.max m z).
Proof.
  intros Hm Hz. unfold maxId in *. rewrite fold_left_app, Hm. simpl.
  apply Math_max_Id_int, Hz.
Qed.

(** The record [create] builds for the input [course] and the Id [newId]. *)
Lemma new_course_Id (course : obj) (newId : Z) (gc : value) :
  Id_int (<["gradeCategories" := gc]> (<["Id" := VNum newId]> course))
  = Some newId.
Proof.
  apply Id_int_Some. rewrite lookup_insert_ne; [|discriminate].
  apply lookup_insert_eq.
Qed.

(** Integers up to 2^53 are binary64 values. *)
Lemma round64_exact (z : Z) : Z.abs z <= 2 ^ 53 -> round64 z = z.
Proof.
  intros H. unfold round64.
  destruct (Z.abs z <? 2 ^ 53) eqn:E; [reflexivity|].
  apply Z.ltb_ge in E. assert (Ha : Z.abs z = 2 ^ 53) by lia.
  destruct (Z.abs_spec z) as [[_ Hz]|[_ Hz]]; rewrite Hz in Ha.
  - rewrite Ha. reflexivity.
  - assert (Hneg : z = - 2 ^ 53) by lia. rewrite Hneg. reflexivity.
Qed.

(** The greatest Id, taken from 0, is below any bound above the Ids. *)
Lemma maxId_below (courses : list obj) (bound : Z) :
  integer_Ids courses -> 0 < bound -> Ids_below bound courses ->
  exists m,
    maxId courses = Some m
    /\ 0 <= m < bound
    /\ (forall z, Some z ∈ Id_int <$> courses -> z <= m)
    /\ (m = 0 \/ Some m ∈ Id_int <$> courses).
Proof.
  intros Hint Hb Hbelow.
  destruct (maxId_defined _ Hint) as [m [Hm [H0 [Hub Hreach]]]].
  exists m. repeat split; try assumption.
  destruct Hreach as [->|Hin]; [exact Hb|apply Hbelow, Hin].
Qed.

(** While the stored Ids are below 2^53, the sum [maxId + 1] is exact. *)
Lemma create_defined (st : storage) (course : obj) :
  integer_Ids (getStoredCourses st) ->
  Ids_below (2 ^ 53) (getStoredCourses st) ->
  exists m r,
    maxId (getStoredCourses st) = Some m
    /\ r = <["gradeCategories" := gradeCategories_or_empty course]>
             (<["Id" := VNum (m + 1)]> course)
    /\ Id_int r = Some (m + 1)
    /\ create st course
       = Some (r, saveCourses (mutate st (getStoredCourses st ++ [r]))
                    (getStoredCourses st ++ [r])).
Proof.
  intros Hint Hbelow.
  destruct (maxId_below _ (2 ^ 53) Hint eq_refl Hbelow) as [m [Hm [Hr _]]].
  exists m. eexists. split; [exact Hm|]. split; [reflexivity|].
  split; [apply new_course_Id|]. unfold create. rewrite Hm.
  rewrite round64_exact by lia. reflexivity.
Qed.

Lemma integer_Ids_snoc (courses : list obj) (r : obj) (z : Z) :
  integer_Ids courses -> Id_int r = Some z -> integer_Ids (courses ++ [r]).
Proof.
  intros Hint Hz. apply Forall_app. split; [exact Hint|].
  constructor; [|constructor]. rewrite Hz. eauto.
Qed.

Lemma unique_Ids_snoc (courses : list obj) (r : obj) (z : Z) :
  unique_Ids courses -> Id_int r = Some z ->
  (forall z', Some z' ∈ Id_int <$> courses -> z' < z) ->
  unique_Ids (courses ++ [r]).
Proof.
  intros [Hint Hnd] Hz Hlt. split; [apply (integer_Ids_snoc _ _ _ Hint Hz)|].
  rewrite fmap_app. apply NoDup_app. split; [exact Hnd|].
  split; [|apply NoDup_singleton].
  intros x Hx Hx'. apply list_elem_of_singleton in Hx'. simpl in Hx'.
  subst x. rewrite Hz in Hx. apply Hlt in Hx. lia.
Qed.

Lemma safe_integer_Ids (courses : list obj) :
  safe_Ids courses -> integer_Ids courses.
Proof.
  apply List.Forall_impl. intros c [z [Hz _]]. rewrite Hz. eauto.
Qed.

Lemma safe_Ids_bounds (courses : list obj) (z : Z) :
  safe_Ids courses -> Some z ∈ Id_int <$> courses -> Z.abs z < 2 ^ 53.
Proof.
  intros Hsafe Hz. apply list_elem_of_fmap in Hz. destruct Hz as [c [Hc Hin]].
  apply list_elem_of_In in Hin.
  pose proof (proj1 (List.Forall_forall _ _) Hsafe c Hin) as [z' [Hz' Hlt]].
  congruence.
Qed.

(** A create while every stored Id is below 2^53 - 1 keeps the Ids
    distinct and safe. *)
Lemma unique_Ids_create (st st' : storage) (course r : obj) :
  unique_Ids (getStoredCourses st) ->
  safe_Ids (getStoredCourses st) ->
  Ids_below (2 ^ 53 - 1) (getStoredCourses st) ->
  create st course = Some (r, st') ->
  unique_Ids (getStoredCourses st') /\ safe_Ids (getStoredCourses st').
Proof.
  intros Huniq Hsafe Hbelow Hc. pose proof Huniq as [Hint _].
  destruct (maxId_below _ (2 ^ 53 - 1) Hint eq_refl Hbelow)
    as [m [Hm [Hr [Hub _]]]].
  assert (Hbelow' : Ids_below (2 ^ 53) (getStoredCourses st)).
  { intros z Hz. apply Hbelow in Hz. lia. }
  destruct (create_defined st course Hint Hbelow')
    as [m' [r0 [Hm' [_ [Hid Heq]]]]].
  rewrite Hm in Hm'. inversion Hm'; subst m'.
  rewrite Heq in Hc. inversion Hc; subst r0 st'. clear Hc.
  rewrite stored_after_mutate. split.
  - apply (unique_Ids_snoc _ _ _ Huniq Hid).
    intros z' Hz'. apply Hub in Hz'. lia.
  - apply Forall_app. split; [exact Hsafe|].
    constructor; [|constructor]. exists (m + 1). split; [exact Hid|lia].
Qed.

(** ** Uniqueness of Ids under delete and update *)

Lemma unique_Ids_filter (p : obj -> bool) (courses : list obj) :
  unique_Ids courses -> unique_Ids (List.filter p courses).
Proof.
  intros [Hint Hnd]. split.
  - apply List.Forall_forall. intros c Hc. apply List.filter_In in Hc.
    destruct Hc as [Hc _]. revert c Hc. apply List.Forall_forall. exact Hint.
  - clear Hint. induction courses as [|c l IH]; simpl; [constructor|].
    rewrite fmap_cons in Hnd. apply NoDup_cons in Hnd.
    destruct Hnd as [Hc Hl]. destruct (p c); [|apply IH, Hl].
    rewrite fmap_cons. apply NoDup_cons. split; [|apply IH, Hl].
    intros Hin. apply Hc. apply list_elem_of_fmap in Hin.
    destruct Hin as [c' [-> Hc']]. apply list_elem_of_fmap_2.
    apply list_elem_of_In. apply list_elem_of_In in Hc'.
    apply List.filter_In in Hc'. tauto.
Qed.

Lemma elem_of_list_insert_inv {A} (l : list A) (i : nat) (x y : A) :
  y ∈ <[i:=x]> l -> y = x \/ y ∈ l.
Proof.
  revert i. induction l as [|z l IH]; intros [|i]; simpl;
    rewrite ?elem_of_cons; try tauto.
  intros [->|H]; [tauto|]. apply IH in H. tauto.
Qed.

Lemma NoDup_insert_fresh {A} (l : list A) (i : nat) (x : A) :
  NoDup l -> x ∉ l -> NoDup (<[i:=x]> l).
Proof.
  revert i. induction l as [|y l IH]; intros i Hnd Hx; [exact Hnd|].
  apply NoDup_cons in Hnd. destruct Hnd as [Hy Hl].
  apply not_elem_of_cons in Hx. destruct Hx as [Hxy Hx].
  destruct i as [|i]; simpl; apply NoDup_cons.
  - split; assumption.
  - split; [|apply IH; assumption].
    intros Hin. apply elem_of_list_insert_inv in Hin.
    destruct Hin as [->|Hin]; [congruence|contradiction].
Qed.

(** The Id of a merged record: that of [data] when it has one. *)
Lemma Id_int_merge (data c : obj) :
  Id_int (data ∪ c)
  = match data !! "Id" with
    | Some (VNum z) => Some z
    | Some _ => None
    | None => Id_int c
    end.
Proof.
  unfold Id_int. destruct (data !! "Id") as [v|] eqn:E.
  - rewrite (lookup_union_Some_l _ _ _ _ E). reflexivity.
  - rewrite lookup_union_r by exact E. reflexivity.
Qed.

Lemma unique_Ids_update (st : storage) (id : idArg) (data : obj) :
  unique_Ids (getStoredCourses st) ->
  safe_Ids (getStoredCourses st) ->
  Id_kept (getStoredCourses st) id data ->
  unique_Ids (getStoredCourses (snd (update st id data)))
  /\ safe_Ids (getStoredCourses (snd (update st id data))).
Proof.
  intros [Hint Hnd] Hsafe Hkept.
  destruct (findIndex (Id_is (parseInt (ToString id))) (getStoredCourses st))
    as [index|] eqn:Hfind.
  2: { rewrite (update_not_found st id data Hfind). repeat split; assumption. }
  destruct (update_found st id data index Hfind) as [c [Hc [Hp Heq]]].
  rewrite Heq. cbn [snd]. rewrite stored_after_mutate.
  apply Id_is_true in Hp. destruct Hp as [z0 [Hn Hz0]].
  assert (Hz0safe : Z.abs z0 < 2 ^ 53).
  { apply (safe_Ids_bounds _ _ Hsafe). rewrite <- Hz0.
    apply list_elem_of_fmap_2. apply list_elem_of_lookup_2 in Hc. exact Hc. }
  assert (Hnew : exists z, Id_int (data ∪ c) = Some z
                   /\ Z.abs z < 2 ^ 53
                   /\ (z = z0 \/ Some z ∉ Id_int <$> getStoredCourses st)).
  { rewrite Id_int_merge. unfold Id_kept in Hkept.
    destruct (data !! "Id") as [v|]; [|eauto].
    destruct Hkept as [z [-> [Hzs Hz]]]. exists z. split; [reflexivity|].
    split; [exact Hzs|].
    destruct Hz as [Hz|Hz]; [left; congruence|right; exact Hz]. }
  destruct Hnew as [z [Hz [Hzs Hfresh]]]. split; [split|].
  - apply Forall_insert; [exact Hint|]. rewrite Hz. eauto.
  - rewrite list_fmap_insert, Hz. destruct Hfresh as [->|Hfresh].
    + rewrite list_insert_id; [exact Hnd|].
      rewrite list_lookup_fmap, Hc. simpl. rewrite Hz0. reflexivity.
    + apply NoDup_insert_fresh; assumption.
  - apply Forall_insert; [exact Hsafe|]. exists z. split; assumption.
Qed.

Lemma safe_Ids_filter (p : obj -> bool) (courses : list obj) :
  safe_Ids courses -> safe_Ids (List.filter p courses).
Proof.
  intros Hsafe. apply List.Forall_forall. intros c Hc.
  apply List.filter_In in Hc. destruct Hc as [Hc _]. revert c Hc.
  apply List.Forall_forall. exact Hsafe.
Qed.

(** A bound on the Ids, checked record by record. *)
Lemma Ids_below_check (bound : Z) (courses : list obj) :
  forallb
    (fun c => match Id_int c with Some z => z <? bound | None => true end)
    courses = true ->
  Ids_below bound courses.
Proof.
  intros H z Hz. apply list_elem_of_fmap in Hz. destruct Hz as [c [Hc Hin]].
  apply list_elem_of_In in Hin.
  pose proof (proj1 (List.forallb_forall _ _) H c Hin) as Hb.
  cbv beta in Hb. rewrite <- Hc in Hb. apply Z.ltb_lt. exact Hb.
Qed.

(** ** Uniqueness of Ids along calls *)

Lemma unique_Ids_after (st : storage) (c : call) :
  unique_Ids (getStoredCourses st) -> safe_Ids (getStoredCourses st) ->
  admissible st c ->
  exists st',
    after st c = Some st'
    /\ unique_Ids (getStoredCourses st') /\ safe_Ids (getStoredCourses st').
Proof.
  intros Huniq Hsafe Hadm. destruct c as [|id|course|id data|id]; simpl.
  - eauto.
  - eauto.
  - pose proof Huniq as [Hint _].
    assert (Hbelow : Ids_below (2 ^ 53) (getStoredCourses st)).
    { intros z Hz. apply Hadm in Hz. lia. }
    destruct (create_defined st course Hint Hbelow) as [m [r [_ [_ [_ Heq]]]]].
    rewrite Heq. simpl. eexists. split; [reflexivity|].
    apply (unique_Ids_create st _ course r Huniq Hsafe Hadm Heq).
  - eexists. split; [reflexivity|]. apply unique_Ids_update; assumption.
  - eexists. split; [reflexivity|].
    split; [apply unique_Ids_filter, Huniq|apply safe_Ids_filter, Hsafe].
Qed.

(** C3, as the code has it. From a stored collection whose records carry
    pairwise distinct safe integer Ids (below 2^53 in absolute value), every
    sequence of getAll, getById, create, delete and update calls leaves
    such a collection, provided each update's data has no Id field, or
    names the Id that was looked up, or names a safe integer that no stored
    record carries, and each create is called while every stored Id is
    below 2^53 - 1. *)
Theorem unique_Ids_preserved (st : storage) (calls : list call) :
  unique_Ids (getStoredCourses st) ->
  safe_Ids (getStoredCourses st) ->
  admissible_all st calls ->
  exists st',
    after_all st calls = Some st'
    /\ unique_Ids (getStoredCourses st') /\ safe_Ids (getStoredCourses st').
Proof.
  revert st. induction calls as [|c calls IH]; intros st Huniq Hsafe Hadm.
  - exists st. split; [reflexivity|split; assumption].
  - destruct Hadm as [Hc Hrest].
    destruct (unique_Ids_after st c Huniq Hsafe Hc)
      as [st1 [Hst1 [Huniq1 Hsafe1]]].
    simpl. rewrite Hst1 in *. apply IH; assumption.
Qed.

Lemma two_courses_unique : unique_Ids (getStoredCourses two_courses).
Proof.
  split.
  - repeat constructor; eexists; reflexivity.
  - apply (bool_decide_unpack _). vm_compute. exact I.
Qed.

Lemma two_courses_safe : safe_Ids (getStoredCourses two_courses).
Proof. repeat constructor; eexists; (split; [reflexivity|lia]). Qed.

Lemma unique_Ids_preserved_witness :
  exists st',
    after_all two_courses
      [Create {[ "code" := VStr "PH301" ]};
       Update (IdStr "1") {[ "code" := VStr "CS102" ]};
       Update (IdStr "2") {[ "Id" := VNum 7 ]};
       Delete (IdStr "3");
       GetById (IdNum 7);
       GetAll] = Some st'
    /\ unique_Ids (getStoredCourses st') /\ safe_Ids (getStoredCourses st').
Proof.
  apply (unique_Ids_preserved two_courses).
  - split.
    + repeat constructor; eexists; reflexivity.
    + apply (bool_decide_unpack _). vm_compute. exact I.
  - repeat constructor; eexists; (split; [reflexivity|lia]).
  - cbn [admissible_all admissible].
    split; [apply Ids_below_check; vm_compute; reflexivity|].
    simpl. repeat split.
    exists 7. split; [reflexivity|]. split; [lia|]. right.
    apply (bool_decide_unpack _). vm_compute. exact I.
Defined.

(** C3 as worded fails: an update whose data carries the Id of another
    record leaves two records with that Id. *)
Lemma update_can_duplicate_Id :
  unique_Ids (getStoredCourses two_courses)
  /\ (fun c : obj => c !! "Id")
       <$> getStoredCourses
             (snd (update two_courses (IdStr "1") {[ "Id" := VNum 2 ]}))
     = [Some (VNum 2); Some (VNum 2)]
  /\ ~ unique_Ids
        (getStoredCourses
           (snd (update two_courses (IdStr "1") {[ "Id" := VNum 2 ]}))).
Proof.
  split; [exact two_courses_unique|]. split; [vm_compute; reflexivity|].
  intros [_ Hnd]. apply (bool_decide_pack _) in Hnd. vm_compute in Hnd.
  exact Hnd.
Qed.

(** ** The Id that create assigns *)

Lemma positive_integer_Ids (courses : list obj) :
  positive_Ids courses -> integer_Ids courses.
Proof.
  apply List.Forall_impl. intros c [z [Hz _]]. rewrite Hz. eauto.
Qed.

Lemma create_all_Ids (inputs : list obj) :
  forall (st : storage) (m : Z),
    integer_Ids (getStoredCourses st) ->
    maxId (getStoredCourses st) = Some m ->
    m + Z.of_nat (length inputs) <= 2 ^ 53 ->
    exists rs st',
      create_all st inputs = Some (rs, st')
      /\ length rs = length inputs
      /\ forall i r, rs !! i = Some r ->
                     Id_int r = Some (m + 1 + Z.of_nat i).
Proof.
  induction inputs as [|course inputs IH]; intros st m Hint Hm Hsum.
  - exists [], st. repeat split. intros i r Hr. discriminate Hr.
  - cbn [length] in Hsum.
    assert (Hbelow : Ids_below (2 ^ 53) (getStoredCourses st)).
    { destruct (maxId_defined _ Hint) as [m' [Hm' [_ [Hub _]]]].
      rewrite Hm in Hm'. inversion Hm'; subst m'.
      intros z Hz. apply Hub in Hz. lia. }
    destruct (create_defined st course Hint Hbelow)
      as [m0 [r [Hm0 [_ [Hid Heq]]]]].
    rewrite Hm in Hm0. inversion Hm0; subst m0. clear Hm0.
    set (st1 := saveCourses (mutate st (getStoredCourses st ++ [r]))
                  (getStoredCourses st ++ [r])) in *.
    assert (Hst1 : getStoredCourses st1 = getStoredCourses st ++ [r])
      by reflexivity.
    destruct (IH st1 (m + 1)) as [rs [st2 [Hall [Hlen Hids]]]].
    + rewrite Hst1. apply (integer_Ids_snoc _ _ _ Hint Hid).
    + rewrite Hst1, (maxId_snoc _ _ _ _ Hm Hid). f_equal. lia.
    + lia.
    + exists (r :: rs), st2. cbn [create_all]. rewrite Heq, Hall.
      split; [reflexivity|]. split; [simpl; congruence|].
      intros [|i] r' Hr'; simpl in Hr'.
      * inversion Hr'; subst r'. rewrite Hid. f_equal. lia.
      * rewrite (Hids i r' Hr'). f_equal. lia.
Qed.

(** C4, as the code has it. On a stored collection of courses with
    positive Ids that, added to the number of create calls that follow,
    stay below 2^53, create returns a record whose Id is the greatest
    stored Id plus 1, or 1 when the collection is empty, whatever Id the
    input carries; and along the successive create calls every returned Id
    is greater than every Id that was stored and than every Id returned
    before. *)
Theorem create_assigns_next_Id
    (st : storage) (course : obj) (inputs : list obj) :
  positive_Ids (getStoredCourses st) ->
  Z.of_nat (length inputs) < 2 ^ 53 ->
  Ids_below (2 ^ 53 - Z.of_nat (length inputs)) (getStoredCourses st) ->
  (exists newId r st',
      create st course = Some (r, st')
      /\ r !! "Id" = Some (VNum newId)
      /\ (getStoredCourses st = [] -> newId = 1)
      /\ (getStoredCourses st <> [] ->
          exists m, is_max_Id (getStoredCourses st) m /\ newId = m + 1)
      /\ (forall z, Some z ∈ Id_int <$> getStoredCourses st -> z < newId))
  /\ (exists rs st',
        create_all st inputs = Some (rs, st')
        /\ length rs = length inputs
        /\ forall i r, rs !! i = Some r ->
             exists newId,
               r !! "Id" = Some (VNum newId)
               /\ (forall z, Some z ∈ Id_int <$> getStoredCourses st ->
                             z < newId)
               /\ (forall j r', (j < i)%nat -> rs !! j = Some r' ->
                      exists z', r' !! "Id" = Some (VNum z') /\ z' < newId)).
Proof.
  intros Hpos Hlen Hbelow. pose proof (positive_integer_Ids _ Hpos) as Hint.
  destruct (maxId_defined _ Hint) as [m [Hm [Hm0 [Hub Hreach]]]].
  assert (Hsum : m + Z.of_nat (length inputs) < 2 ^ 53).
  { destruct Hreach as [->|Hin]; [lia|]. apply Hbelow in Hin. lia. }
  assert (Hbelow' : Ids_below (2 ^ 53) (getStoredCourses st)).
  { intros z Hz. apply Hub in Hz. lia. }
  split.
  - destruct (create_defined st course Hint Hbelow')
      as [m' [r [Hm' [_ [Hid Heq]]]]].
    rewrite Hm in Hm'. inversion Hm'; subst m'. clear Hm'.
    exists (m + 1), r. eexists. split; [exact Heq|].
    split; [apply Id_int_Some, Hid|]. split; [|split].
    + intros Hempty. rewrite Hempty in Hm. inversion Hm. reflexivity.
    + intros Hne. exists m. split; [|reflexivity]. split; [|exact Hub].
      destruct Hreach as [->|Hin]; [|exact Hin].
      destruct (getStoredCourses st) as [|c l]; [congruence|].
      inversion Hpos as [|? ? [z [Hz Hz0]] _]; subst.
      assert (z <= 0); [|lia].
      apply Hub. rewrite fmap_cons, Hz. apply elem_of_cons. left. reflexivity.
    + intros z Hz. apply Hub in Hz. lia.
  - destruct (create_all_Ids inputs st m Hint Hm)
      as [rs [st' [Hall [Hlen' Hids]]]]; [lia|].
    exists rs, st'. split; [exact Hall|]. split; [exact Hlen'|].
    intros i r Hr. exists (m + 1 + Z.of_nat i).
    split; [apply Id_int_Some, (Hids i r Hr)|]. split.
    + intros z Hz. apply Hub in Hz. lia.
    + intros j r' Hj Hr'. exists (m + 1 + Z.of_nat j).
      split; [apply Id_int_Some, (Hids j r' Hr')|lia].
Qed.

Lemma create_assigns_next_Id_witness :
  (exists newId r st',
      create two_courses {[ "Id" := VNum 1; "code" := VStr "PH301" ]}
      = Some (r, st')
      /\ r !! "Id" = Some (VNum newId)
      /\ (getStoredCourses two_courses = [] -> newId = 1)
      /\ (getStoredCourses two_courses <> [] ->
          exists m, is_max_Id (getStoredCourses two_courses) m
                    /\ newId = m + 1)
      /\ (forall z, Some z ∈ Id_int <$> getStoredCourses two_courses ->
                    z < newId))
  /\ (exists rs st',
        create_all two_courses
          [ {[ "code" := VStr "PH301" ]}; {[ "code" := VStr "CH401" ]} ]
        = Some (rs, st')
        /\ length rs = 2%nat
        /\ forall i r, rs !! i = Some r ->
             exists newId,
               r !! "Id" = Some (VNum newId)
               /\ (forall z,
                      Some z ∈ Id_int <$> getStoredCourses two_courses ->
                      z < newId)
               /\ (forall j r', (j < i)%nat -> rs !! j = Some r' ->
                      exists z', r' !! "Id" = Some (VNum z') /\ z' < newId)).
Proof.
  apply (create_assigns_next_Id two_courses
           {[ "Id" := VNum 1; "code" := VStr "PH301" ]}
           [ {[ "code" := VStr "PH301" ]}; {[ "code" := VStr "CH401" ]} ]).
  - repeat constructor; eexists; (split; [reflexivity|lia]).
  - simpl. lia.
  - apply Ids_below_check. vm_compute. reflexivity.
Defined.

(** C4 as worded fails where the greatest stored Id is 2^53: the sum
    [maxId + 1] is rounded back to 2^53, so that create returns the Id the
    stored record already has, not that Id plus 1. *)
Lemma create_repeats_Id_at_2_53 :
  positive_Ids (getStoredCourses store_at_2_53)
  /\ is_max_Id (getStoredCourses store_at_2_53) 9007199254740992
  /\ exists r st',
       create store_at_2_53 {[ "code" := VStr "MA201" ]} = Some (r, st')
       /\ r !! "Id" = Some (VNum 9007199254740992)
       /\ r !! "Id" <> Some (VNum (9007199254740992 + 1))
       /\ (Id_int <$> getStoredCourses st')
          = [Some 9007199254740992; Some 9007199254740992].
Proof.
  split; [repeat constructor; eexists; (split; [reflexivity|lia])|].
  split.
  - split; [apply (bool_decide_unpack _); vm_compute; exact I|].
    intros z Hz.
    replace (Id_int <$> getStoredCourses store_at_2_53)
      with [Some 9007199254740992] in Hz by (vm_compute; reflexivity).
    apply list_elem_of_singleton in Hz. inversion Hz. lia.
  - eexists. eexists. split; [vm_compute; reflexivity|].
    split; [vm_compute; reflexivity|].
    split; [vm_compute; discriminate|vm_compute; reflexivity].
Qed.

(** ** parseInt reads back the numeral of an integer *)

(** Evaluates the digit test on the literal character in the goal. *)
Ltac eval_digit :=
  match goal with
  | |- context [digit_of 10 ?c] =>
      let v := eval vm_compute in (digit_of 10 c) in
      change (digit_of 10 c) with v
  end;
  cbv iota.

Lemma parse_digits_acc (d : Decimal.uint) (acc : positive) :
  parse_digits 10 (NilEmpty.string_of_uint d) (Some (Z.pos acc))
  = Some (Z.pos (Pos.of_uint_acc d acc)).
Proof.
  revert acc. induction d as [|d IH|d IH|d IH|d IH|d IH|d IH|d IH|d IH|d IH|d IH];
    intros acc; [reflexivity|..];
    cbn [NilEmpty.string_of_uint parse_digits Pos.of_uint_acc];
    eval_digit; rewrite <- IH; do 2 f_equal; lia.
Qed.

Lemma parse_digits_zero (d : Decimal.uint) :
  parse_digits 10 (NilEmpty.string_of_uint d) (Some 0)
  = Some (Z.of_N (Pos.of_uint d)).
Proof.
  induction d as [|d IH|d IH|d IH|d IH|d IH|d IH|d IH|d IH|d IH|d IH];
    [reflexivity|exact IH|..];
    cbn [NilEmpty.string_of_uint parse_digits Pos.of_uint];
    eval_digit; apply parse_digits_acc.
Qed.

Lemma parse_digits_start (d : Decimal.uint) :
  d <> Decimal.Nil ->
  parse_digits 10 (NilEmpty.string_of_uint d) None
  = parse_digits 10 (NilEmpty.string_of_uint d) (Some 0).
Proof. destruct d; [congruence|reflexivity..]. Qed.

Lemma parse_numeral (d : Decimal.uint) (sign : Z) :
  match parse_digits 10 (NilZero.string_of_uint d) None with
  | Some mathInt => to_Number (sign * mathInt)
  | None => None
  end = to_Number (sign * Z.of_uint d).
Proof.
  destruct d as [|d|d|d|d|d|d|d|d|d|d]; [reflexivity|..];
    unfold NilZero.string_of_uint;
    rewrite parse_digits_start by discriminate;
    rewrite parse_digits_zero; reflexivity.
Qed.

(** A numeral has no white space, sign or [0x] in front, so that its
    digits are read in radix 10, after a [-] as well. *)
Lemma parseInt_numeral (d : Decimal.uint) :
  parseInt (NilZero.string_of_uint d) = to_Number (Z.of_uint d)
  /\ parseInt (String "-" (NilZero.string_of_uint d))
     = to_Number (- Z.of_uint d).
Proof.
  pose proof (parse_numeral d 1) as Hpos.
  pose proof (parse_numeral d (-1)) as Hneg.
  rewrite Z.mul_1_l in Hpos.
  replace (-1 * Z.of_uint d) with (- Z.of_uint d) in Hneg by lia.
  split;
    (destruct d as [|d|d|d|d|d|d|d|d|d|d]; [reflexivity|..];
     try assumption;
     destruct d as [|d|d|d|d|d|d|d|d|d|d]; assumption).
Qed.

Lemma to_Number_exact (z : Z) : Z.abs z <= 2 ^ 53 -> to_Number z = Some z.
Proof.
  intros H. unfold to_Number. rewrite (round64_exact z H).
  assert (Hlt : (Z.abs z <? 2 ^ 1024) = true); [|rewrite Hlt; reflexivity].
  apply Z.ltb_lt. apply (Z.le_lt_trans _ _ _ H). reflexivity.
Qed.

Lemma parseInt_of_numeral (z : Z) : parseInt (numeral z) = to_Number z.
Proof.
  unfold numeral. rewrite <- (DecimalZ.of_to z) at 2.
  destruct (Z.to_int z) as [d|d]; simpl NilZero.string_of_int.
  - apply parseInt_numeral.
  - apply parseInt_numeral.
Qed.

(** An integer Number up to 2^53 in absolute value is printed with all its
    digits, which parseInt reads back. *)
Lemma parseInt_ToString (z : Z) :
  Z.abs z <= 2 ^ 53 -> parseInt (ToString (IdNum z)) = Some z.
Proof.
  intros H. destruct (Z.eq_dec (Z.abs z) (2 ^ 53)) as [Heq|Hne].
  - destruct (Z.abs_spec z) as [[_ Hz]|[_ Hz]]; rewrite Hz in Heq.
    + rewrite Heq. vm_compute. reflexivity.
    + assert (Hneg : z = - 2 ^ 53) by lia. rewrite Hneg.
      vm_compute. reflexivity.
  - unfold ToString. rewrite (to_Number_exact z H).
    assert (Hlt : (Z.abs z <? 2 ^ 53) = true) by (apply Z.ltb_lt; lia).
    rewrite Hlt, parseInt_of_numeral. apply to_Number_exact, H.
Qed.

(** ** create, then getById *)


Lemma Id_is_other (c : obj) (z n : Z) :
  Id_int c = Some z -> z <> n -> Id_is (Some n) c = false.
Proof.
  intros Hz Hne. destruct (Id_is (Some n) c) eqn:E; [|reflexivity].
  apply Id_is_true in E. destruct E as [z' [Hn Hz']]. congruence.
Qed.




End StoreProperties.

(** * How the store operations compose *)

Section StoreCompositions.

Import courseService.
Local Open Scope Z_scope.

(** ** Searching lists *)


Lemma filter_all {A} (p : A -> bool) (l : list A) :
  (forall x, In x l -> p x = true) -> List.filter p l = l.
Proof.
  induction l as [|x l IH]; intros H; simpl; [reflexivity|].
  rewrite (H x (or_introl eq_refl)). f_equal. apply IH.
  intros y Hy. apply H. right. exact Hy.
Qed.

Lemma find_filter_other {A} (p q : A -> bool) (l : list A) :
  (forall x, q x = true -> p x = true) ->
  List.find q (List.filter p l) = List.find q l.
Proof.
  intros H. induction l as [|x l IH]; simpl; [reflexivity|].
  destruct (q x) eqn:Eq.
  - rewrite (H x Eq). simpl. rewrite Eq. reflexivity.
  - destruct (p x); simpl; [rewrite Eq|]; exact IH.
Qed.

(** With pairwise distinct keys, a search by key returns the element that
    has it. *)
Lemma find_unique {A B} (f : A -> B) (p : A -> bool) (l : list A) (c : A) :
  NoDup (f <$> l) -> c ∈ l -> p c = true ->
  (forall x, p x = true -> f x = f c) ->
  List.find p l = Some c.
Proof.
  intros Hnd Hc Hpc Hp. induction l as [|x l IH]; [inversion Hc|].
  rewrite fmap_cons in Hnd. apply NoDup_cons in Hnd. destruct Hnd as [Hx Hl].
  apply elem_of_cons in Hc. simpl. destruct Hc as [<-|Hc].
  - rewrite Hpc. reflexivity.
  - destruct (p x) eqn:Ex; [|apply IH; assumption].
    exfalso. apply Hx. rewrite (Hp x Ex). apply list_elem_of_fmap_2, Hc.
Qed.

Lemma find_insert_first {A} (p : A -> bool) (l : list A) (i : nat) (r : A) :
  (i < length l)%nat -> p r = true ->
  (forall j y, (j < i)%nat -> l !! j = Some y -> p y = false) ->
  List.find p (<[i:=r]> l) = Some r.
Proof.
  revert i. induction l as [|x l IH]; intros i Hi Hr Hfirst; simpl in Hi;
    [lia|].
  destruct i as [|i]; simpl.
  - rewrite Hr. reflexivity.
  - rewrite (Hfirst 0%nat x); [|lia|reflexivity].
    apply IH; [lia|exact Hr|].
    intros j y Hj Hy. apply (Hfirst (S j) y); [lia|exact Hy].
Qed.

Lemma findIndex_insert_first {A} (p : A -> bool) (l : list A) (i : nat) (r : A) :
  (i < length l)%nat -> p r = true ->
  (forall j y, (j < i)%nat -> l !! j = Some y -> p y = false) ->
  findIndex p (<[i:=r]> l) = Some i.
Proof.
  revert i. induction l as [|x l IH]; intros i Hi Hr Hfirst; simpl in Hi;
    [lia|].
  destruct i as [|i]; simpl.
  - rewrite Hr. reflexivity.
  - rewrite (Hfirst 0%nat x); [|lia|reflexivity].
    rewrite IH; [reflexivity|lia|exact Hr|].
    intros j y Hj Hy. apply (Hfirst (S j) y); [lia|exact Hy].
Qed.

Lemma find_insert_other {A} (q : A -> bool) (l : list A) (i : nat) (c r : A) :
  l !! i = Some c -> q c = false -> q r = false ->
  List.find q (<[i:=r]> l) = List.find q l.
Proof.
  revert i. induction l as [|x l IH]; intros i Hc Hqc Hqr; [discriminate Hc|].
  destruct i as [|i]; simpl in *.
  - inversion Hc; subst x. rewrite Hqc, Hqr. reflexivity.
  - destruct (q x); [reflexivity|]. apply (IH i); assumption.
Qed.

(** A record matches a parsed id according to its integer Id alone. *)
Lemma Id_is_by_Id_int (n : option Z) (c r : obj) :
  Id_int r = Id_int c -> Id_is n r = Id_is n c.
Proof.
  intros H. destruct (Id_is n c) eqn:Ec.
  - apply Id_is_true in Ec. destruct Ec as [z [Hn Hz]].
    apply Id_is_true. exists z. split; congruence.
  - destruct (Id_is n r) eqn:Er; [|reflexivity].
    apply Id_is_true in Er. destruct Er as [z [Hn Hz]].
    assert (Id_is n c = true); [|congruence].
    apply Id_is_true. exists z. split; congruence.
Qed.

Lemma Id_is_two (n n' : option Z) (c : obj) :
  Id_is n c = true -> Id_is n' c = true -> n = n'.
Proof.
  intros H H'. apply Id_is_true in H. apply Id_is_true in H'.
  destruct H as [z [-> Hz]]. destruct H' as [z' [-> Hz']]. congruence.
Qed.

(** ** Lookups after each operation *)

(** X1. In a collection with pairwise distinct integer Ids, getById of the
    Id of a stored record, when that Id is at most 2^53 in absolute value,
    returns that very record and changes nothing. *)
Theorem getById_finds_stored (st : storage) (c : obj) (z : Z) :
  unique_Ids (getStoredCourses st) ->
  c ∈ getStoredCourses st ->
  Id_int c = Some z ->
  Z.abs z <= 2 ^ 53 ->
  getById st (IdNum z) = (Some c, st).
Proof.
  intros [_ Hnd] Hc Hz Hsafe. unfold getById.
  rewrite (parseInt_ToString z Hsafe).
  rewrite (find_unique Id_int _ _ c Hnd Hc); [reflexivity| |].
  - apply Id_is_true. eauto.
  - intros x Hx. apply Id_is_true in Hx. destruct Hx as [z' [Hz' Hx]].
    congruence.
Qed.

Lemma getById_finds_stored_witness :
  getById two_courses (IdNum 2)
  = (Some {[ "Id" := VNum 2; "code" := VStr "MA201" ]}, two_courses).
Proof.
  apply (getById_finds_stored two_courses).
  - split.
    + repeat constructor; eexists; reflexivity.
    + apply (bool_decide_unpack _). vm_compute. exact I.
  - apply list_elem_of_In. right. left. reflexivity.
  - reflexivity.
  - simpl. lia.
Defined.

(** X2. After delete(id), getById(id) returns null, whatever the id and
    the collection. *)
Theorem getById_after_delete (st : storage) (id : idArg) :
  fst (getById (snd (delete st id)) id) = None.
Proof.
  unfold getById, delete. cbn [fst snd]. rewrite stored_after_save.
  apply find_never. intros c Hc. apply List.filter_In in Hc.
  destruct Hc as [_ Hc]. apply negb_true_iff in Hc. exact Hc.
Qed.

(** X3. delete(id) leaves the result of getById unchanged for every id
    that parses to another value. *)
Theorem delete_keeps_other_lookups (st : storage) (id id' : idArg) :
  parseInt (ToString id') <> parseInt (ToString id) ->
  fst (getById (snd (delete st id)) id') = fst (getById st id').
Proof.
  intros Hne. unfold getById, delete. cbn [fst snd].
  rewrite stored_after_save. apply find_filter_other.
  intros c Hc. apply negb_true_iff.
  destruct (Id_is (parseInt (ToString id)) c) eqn:E; [|reflexivity].
  exfalso. apply Hne. apply (Id_is_two _ _ c); assumption.
Qed.

Lemma delete_keeps_other_lookups_witness :
  fst (getById (snd (delete two_courses (IdStr "1"))) (IdNum 2))
  = fst (getById two_courses (IdNum 2)).
Proof.
  apply (delete_keeps_other_lookups two_courses (IdStr "1") (IdNum 2)).
  vm_compute. discriminate.
Defined.

(** X4. In a collection with pairwise distinct integer Ids, delete of the
    Id of a stored record, when that Id is at most 2^53 in absolute value,
    removes that record and keeps all the others, in their order. *)
Theorem delete_removes_that_record
    (st : storage) (l1 l2 : list obj) (c : obj) (z : Z) :
  getStoredCourses st = l1 ++ c :: l2 ->
  unique_Ids (getStoredCourses st) ->
  Id_int c = Some z ->
  Z.abs z <= 2 ^ 53 ->
  getStoredCourses (snd (delete st (IdNum z))) = l1 ++ l2.
Proof.
  intros Hst [_ Hnd] Hz Hsafe. unfold delete. cbn [snd].
  rewrite stored_after_save, (parseInt_ToString z Hsafe), Hst.
  rewrite Hst, fmap_app, fmap_cons in Hnd.
  apply NoDup_app in Hnd. destruct Hnd as [_ [Hl1 Hcl2]].
  apply NoDup_cons in Hcl2. destruct Hcl2 as [Hl2 _].
  assert (Hkeep : forall l : list obj,
             (forall x, x ∈ l -> Id_int x <> Some z) ->
             List.filter (fun c => negb (Id_is (Some z) c)) l = l).
  { intros l Hl. apply filter_all. intros x Hx. apply negb_true_iff.
    destruct (Id_is (Some z) x) eqn:E; [|reflexivity].
    apply Id_is_true in E. destruct E as [z' [Hz' Hx']].
    exfalso. apply (Hl x); [apply list_elem_of_In, Hx|congruence]. }
  rewrite List.filter_app. cbn [List.filter].
  assert (Hc : Id_is (Some z) c = true) by (apply Id_is_true; eauto).
  rewrite Hc. cbn [negb]. rewrite !Hkeep; [reflexivity| |].
  - intros x Hx Heq. apply Hl2. rewrite Hz, <- Heq.
    apply list_elem_of_fmap_2, Hx.
  - intros x Hx Heq. apply (Hl1 (Id_int x)).
    + apply list_elem_of_fmap_2, Hx.
    + rewrite Heq, <- Hz. apply elem_of_cons. left. reflexivity.
Qed.

Lemma delete_removes_that_record_witness :
  getStoredCourses (snd (delete two_courses (IdNum 1)))
  = [] ++ [ {[ "Id" := VNum 2; "code" := VStr "MA201" ]} ].
Proof.
  apply (delete_removes_that_record two_courses []
           [ {[ "Id" := VNum 2; "code" := VStr "MA201" ]} ]
           {[ "Id" := VNum 1; "code" := VStr "CS101" ]} 1).
  - reflexivity.
  - split.
    + repeat constructor; eexists; reflexivity.
    + apply (bool_decide_unpack _). vm_compute. exact I.
  - reflexivity.
  - simpl. lia.
Defined.

(** X5. delete of an id that matches no stored record, a non-numeric id
    included, keeps every record; it still writes the collection to the
    slot. *)
Theorem delete_unmatched_keeps_all (st : storage) (id : idArg) :
  (forall c, In c (getStoredCourses st) ->
             Id_is (parseInt (ToString id)) c = false) ->
  getStoredCourses (snd (delete st id)) = getStoredCourses st
  /\ localStorage (snd (delete st id)) = Some (getStoredCourses st).
Proof.
  intros Hnone.
  assert (Hf : List.filter
                 (fun c => negb (Id_is (parseInt (ToString id)) c))
                 (getStoredCourses st) = getStoredCourses st).
  { apply filter_all. intros c Hc. rewrite (Hnone c Hc). reflexivity. }
  unfold delete. cbn [snd]. rewrite stored_after_save, Hf.
  split; [reflexivity|]. unfold saveCourses. simpl. reflexivity.
Qed.

Lemma delete_unmatched_keeps_all_witness :
  getStoredCourses (snd (delete (mkStorage (getStoredCourses two_courses) None)
                           (IdStr "abc")))
  = getStoredCourses two_courses
  /\ localStorage (snd (delete (mkStorage (getStoredCourses two_courses) None)
                          (IdStr "abc")))
     = Some (getStoredCourses two_courses).
Proof.
  apply (delete_unmatched_keeps_all
           (mkStorage (getStoredCourses two_courses) None) (IdStr "abc")).
  intros c _. reflexivity.
Defined.

(** ** update, then update or getById *)

(** What a successful update located and stored. *)
Lemma update_located
    (st st' : storage) (id : idArg) (data r : obj) :
  update st id data = (Some r, st') ->
  exists index c,
    getStoredCourses st !! index = Some c
    /\ Id_is (parseInt (ToString id)) c = true
    /\ (forall j y, (j < index)%nat -> getStoredCourses st !! j = Some y ->
                    Id_is (parseInt (ToString id)) y = false)
    /\ r = data ∪ c
    /\ st' = saveCourses
               (mutate st (<[index := r]> (getStoredCourses st)))
               (<[index := r]> (getStoredCourses st)).
Proof.
  intros Hupd.
  destruct (findIndex (Id_is (parseInt (ToString id))) (getStoredCourses st))
    as [index|] eqn:Hfind.
  - destruct (findIndex_Some _ _ _ Hfind) as [c [Hc [Hp Hfirst]]].
    destruct (update_found st id data index Hfind) as [c' [Hc' [_ Heq]]].
    rewrite Hc in Hc'. inversion Hc'; subst c'.
    rewrite Heq in Hupd. inversion Hupd; subst.
    exists index, c. repeat split; assumption.
  - rewrite (update_not_found st id data Hfind) in Hupd. discriminate Hupd.
Qed.

Lemma merge_twice (data c : obj) : data ∪ (data ∪ c) = data ∪ c.
Proof.
  apply map_eq. intros k. destruct (data !! k) as [v|] eqn:E.
  - rewrite !(lookup_union_Some_l _ _ _ _ E). reflexivity.
  - rewrite !lookup_union_r by exact E. reflexivity.
Qed.

Lemma Id_int_merge_no_Id (data c : obj) :
  data !! "Id" = None -> Id_int (data ∪ c) = Id_int c.
Proof. intros H. rewrite Id_int_merge, H. reflexivity. Qed.

(** X6. After an update that found a record and whose data has no Id
    field, getById of the same id returns the merged record. *)
Theorem getById_after_update
    (st st' : storage) (id : idArg) (data r : obj) :
  update st id data = (Some r, st') ->
  data !! "Id" = None ->
  getById st' id = (Some r, st').
Proof.
  intros Hupd Hdata.
  destruct (update_located _ _ _ _ _ Hupd)
    as [index [c [Hc [Hp [Hfirst [Hr Hst']]]]]].
  unfold getById. rewrite Hst', stored_after_mutate.
  rewrite find_insert_first; [reflexivity| | |exact Hfirst].
  - apply lookup_lt_Some in Hc. exact Hc.
  - rewrite (Id_is_by_Id_int _ c r); [exact Hp|].
    rewrite Hr. apply Id_int_merge_no_Id, Hdata.
Qed.

Lemma getById_after_update_witness :
  getById (snd (update two_courses (IdStr "2") {[ "code" := VStr "MA202" ]}))
    (IdStr "2")
  = (Some {[ "Id" := VNum 2; "code" := VStr "MA202" ]},
     snd (update two_courses (IdStr "2") {[ "code" := VStr "MA202" ]})).
Proof.
  apply (getById_after_update two_courses _ (IdStr "2")
           {[ "code" := VStr "MA202" ]}).
  - vm_compute. reflexivity.
  - reflexivity.
Defined.

(** X7. Repeating an update whose data has no Id field changes nothing
    more: the second call returns what the first returned and leaves the
    storage as the first left it. *)
Theorem update_idempotent (st : storage) (id : idArg) (data : obj) :
  data !! "Id" = None ->
  update (snd (update st id data)) id data = update st id data.
Proof.
  intros Hdata.
  destruct (update st id data) as [[r|] st'] eqn:Hupd.
  - destruct (update_located _ _ _ _ _ Hupd)
      as [index [c [Hc [Hp [Hfirst [Hr Hst']]]]]].
    cbn [snd].
    assert (Hlt : (index < length (getStoredCourses st))%nat)
      by (apply lookup_lt_Some in Hc; exact Hc).
    assert (Hpr : Id_is (parseInt (ToString id)) r = true).
    { rewrite (Id_is_by_Id_int _ c r); [exact Hp|].
      rewrite Hr. apply Id_int_merge_no_Id, Hdata. }
    assert (Hstored : getStoredCourses st'
                      = <[index := r]> (getStoredCourses st))
      by (rewrite Hst'; apply stored_after_mutate).
    unfold update. rewrite Hstored.
    rewrite (findIndex_insert_first _ _ _ _ Hlt Hpr Hfirst).
    rewrite list_lookup_insert_eq by exact Hlt.
    rewrite Hr, merge_twice, <- Hr, list_insert_insert_eq.
    rewrite list_lookup_insert_eq by exact Hlt.
    f_equal. rewrite Hst'. reflexivity.
  - cbn [snd].
    destruct (findIndex (Id_is (parseInt (ToString id))) (getStoredCourses st))
      as [index|] eqn:Hfind.
    + destruct (update_found st id data index Hfind) as [c [_ [_ Heq]]].
      rewrite Heq in Hupd. discriminate Hupd.
    + rewrite (update_not_found st id data Hfind) in Hupd.
      inversion Hupd; subst st'. apply update_not_found, Hfind.
Qed.

Lemma update_idempotent_witness :
  update (snd (update two_courses (IdNum 1) {[ "code" := VStr "CS102" ]}))
    (IdNum 1) {[ "code" := VStr "CS102" ]}
  = update two_courses (IdNum 1) {[ "code" := VStr "CS102" ]}.
Proof.
  apply (update_idempotent two_courses (IdNum 1)). reflexivity.
Defined.

(** X8. An update whose data has no Id field leaves the result of getById
    unchanged for every id that parses to another value. *)
Theorem update_keeps_other_lookups
    (st : storage) (id id' : idArg) (data : obj) :
  data !! "Id" = None ->
  parseInt (ToString id') <> parseInt (ToString id) ->
  fst (getById (snd (update st id data)) id') = fst (getById st id').
Proof.
  intros Hdata Hne.
  destruct (update st id data) as [[r|] st'] eqn:Hupd.
  - destruct (update_located _ _ _ _ _ Hupd)
      as [index [c [Hc [Hp [_ [Hr Hst']]]]]].
    unfold getById. cbn [fst snd]. rewrite Hst', stored_after_mutate.
    assert (Hqc : Id_is (parseInt (ToString id')) c = false).
    { destruct (Id_is (parseInt (ToString id')) c) eqn:E; [|reflexivity].
      exfalso. apply Hne. apply (Id_is_two _ _ c); assumption. }
    apply (find_insert_other _ _ _ c r Hc Hqc).
    rewrite (Id_is_by_Id_int _ c r); [exact Hqc|].
    rewrite Hr. apply Id_int_merge_no_Id, Hdata.
  - cbn [snd].
    destruct (findIndex (Id_is (parseInt (ToString id))) (getStoredCourses st))
      as [index|] eqn:Hfind.
    + destruct (update_found st id data index Hfind) as [c [_ [_ Heq]]].
      rewrite Heq in Hupd. discriminate Hupd.
    + rewrite (update_not_found st id data Hfind) in Hupd.
      inversion Hupd; subst st'. reflexivity.
Qed.

Lemma update_keeps_other_lookups_witness :
  fst (getById (snd (update two_courses (IdNum 1) {[ "code" := VStr "CS102" ]}))
         (IdStr "2"))
  = fst (getById two_courses (IdStr "2")).
Proof.
  apply (update_keeps_other_lookups two_courses (IdNum 1) (IdStr "2")).
  - reflexivity.
  - vm_compute. discriminate.
Defined.

(** ** create and the records around it *)




(** X10. On a collection with integer Ids of any sign, all below 2^53,
    create assigns an Id that is at least 1 and greater than every stored
    Id. *)
Theorem create_Id_at_least_one (st : storage) (course : obj) :
  integer_Ids (getStoredCourses st) ->
  Ids_below (2 ^ 53) (getStoredCourses st) ->
  exists newId r st',
    create st course = Some (r, st')
    /\ r !! "Id" = Some (VNum newId)
    /\ 1 <= newId
    /\ (forall z, Some z ∈ Id_int <$> getStoredCourses st -> z < newId).
Proof.
  intros Hint Hbelow.
  destruct (create_defined st course Hint Hbelow)
    as [m [r [Hm [_ [Hid Heq]]]]].
  destruct (maxId_defined _ Hint) as [m' [Hm' [H0 [Hub _]]]].
  rewrite Hm in Hm'. inversion Hm'; subst m'.
  exists (m + 1), r. eexists. split; [exact Heq|].
  split; [apply Id_int_Some, Hid|]. split; [lia|].
  intros z Hz. apply Hub in Hz. lia.
Qed.

Lemma create_Id_at_least_one_witness :
  exists newId r st',
    create (mkStorage [ {[ "Id" := VNum (-5) ]} ] None) ∅ = Some (r, st')
    /\ r !! "Id" = Some (VNum newId)
    /\ 1 <= newId
    /\ (forall z,
          Some z ∈ Id_int <$> getStoredCourses
                                (mkStorage [ {[ "Id" := VNum (-5) ]} ] None) ->
          z < newId).
Proof.
  apply (create_Id_at_least_one (mkStorage [ {[ "Id" := VNum (-5) ]} ] None) ∅).
  - repeat constructor. eexists. reflexivity.
  - apply Ids_below_check. vm_compute. reflexivity.
Defined.

(** X11. On a collection with integer Ids below 2^53, delete of the Id
    that create has just assigned restores the stored collection, and the
    next create assigns that same Id again: an Id is reused once the record
    that had the greatest Id is deleted. *)
Theorem create_delete_create (st : storage) (course course' : obj) :
  integer_Ids (getStoredCourses st) ->
  Ids_below (2 ^ 53) (getStoredCourses st) ->
  exists newId r st1 r' st3,
    create st course = Some (r, st1)
    /\ r !! "Id" = Some (VNum newId)
    /\ getStoredCourses (snd (delete st1 (IdNum newId))) = getStoredCourses st
    /\ create (snd (delete st1 (IdNum newId))) course' = Some (r', st3)
    /\ r' !! "Id" = Some (VNum newId).
Proof.
  intros Hint Hbelow.
  destruct (create_defined st course Hint Hbelow)
    as [m [r [Hm [_ [Hid Heq]]]]].
  destruct (maxId_below _ (2 ^ 53) Hint eq_refl Hbelow)
    as [m' [Hm' [Hrange [Hub _]]]].
  rewrite Hm in Hm'. inversion Hm'; subst m'.
  set (st1 := saveCourses (mutate st (getStoredCourses st ++ [r]))
                (getStoredCourses st ++ [r])) in *.
  assert (Hdel : getStoredCourses (snd (delete st1 (IdNum (m + 1))))
                 = getStoredCourses st).
  { unfold delete. cbn [snd].
    rewrite stored_after_save, parseInt_ToString by lia.
    subst st1. rewrite stored_after_mutate, List.filter_app.
    cbn [List.filter].
    assert (Hr : Id_is (Some (m + 1)) r = true) by (apply Id_is_true; eauto).
    rewrite Hr. cbn [negb]. rewrite app_nil_r. apply filter_all.
    intros c Hc. apply negb_true_iff.
    pose proof (proj1 (List.Forall_forall _ _) Hint c Hc) as [z Hz].
    apply (Id_is_other c z); [exact Hz|].
    assert (z <= m); [|lia]. apply Hub. rewrite <- Hz.
    apply list_elem_of_fmap_2, list_elem_of_In, Hc. }
  assert (Hint2 : integer_Ids
                    (getStoredCourses (snd (delete st1 (IdNum (m + 1))))))
    by (rewrite Hdel; exact Hint).
  assert (Hbelow2 : Ids_below (2 ^ 53)
                      (getStoredCourses (snd (delete st1 (IdNum (m + 1))))))
    by (rewrite Hdel; exact Hbelow).
  destruct (create_defined _ course' Hint2 Hbelow2)
    as [m2 [r' [Hm2 [_ [Hid' Heq']]]]].
  rewrite Hdel, Hm in Hm2. inversion Hm2; subst m2.
  exists (m + 1), r, st1, r'. eexists.
  split; [exact Heq|]. split; [apply Id_int_Some, Hid|].
  split; [exact Hdel|]. split; [exact Heq'|]. apply Id_int_Some, Hid'.
Qed.

Lemma create_delete_create_witness :
  exists newId r st1 r' st3,
    create two_courses {[ "code" := VStr "PH301" ]} = Some (r, st1)
    /\ r !! "Id" = Some (VNum newId)
    /\ getStoredCourses (snd (delete st1 (IdNum newId)))
       = getStoredCourses two_courses
    /\ create (snd (delete st1 (IdNum newId))) {[ "code" := VStr "CH401" ]}
       = Some (r', st3)
    /\ r' !! "Id" = Some (VNum newId).
Proof.
  apply (create_delete_create two_courses).
  - repeat constructor; eexists; reflexivity.
  - apply Ids_below_check. vm_compute. reflexivity.
Defined.



(** ** The slot and the bundled data *)




End StoreCompositions.

(** * More on the grade aggregator and its component *)

Section GradesBreakdown.

Import JS Grades.
Local Open Scope float_scope.

Lemma gradeOfCategory_name_weight
    (cas : list Assignment.t) (category : GradeCategory.t) :
  CategoryGrade.name (gradeOfCategory cas category)
  = GradeCategory.name category
  /\ CategoryGrade.weight (gradeOfCategory cas category)
     = GradeCategory.weight category.
Proof.
  unfold gradeOfCategory.
  destruct (Nat.eqb (length (categoryAssignments cas category)) 0);
    split; reflexivity.
Qed.

Lemma gradeOfCategory_count
    (cas : list Assignment.t) (category : GradeCategory.t) :
  CategoryGrade.count (gradeOfCategory cas category)
  = length (categoryAssignments cas category).
Proof.
  unfold gradeOfCategory.
  destruct (categoryAssignments cas category) as [|a l]; reflexivity.
Qed.

(** X14. The breakdown has one entry per category of the current course,
    in the order of the course, each with the name and the weight of its
    category. *)
Theorem breakdown_follows_categories
    (courses : list Course.t) (assignments : list Assignment.t)
    (selectedCourse : option Z) (c : Course.t) (cats : list GradeCategory.t) :
  currentCourse courses selectedCourse = Some c ->
  Course.gradeCategories c = Some cats ->
  length (categoryGrades courses assignments selectedCourse) = length cats
  /\ List.map CategoryGrade.name
       (categoryGrades courses assignments selectedCourse)
     = List.map GradeCategory.name cats
  /\ List.map CategoryGrade.weight
       (categoryGrades courses assignments selectedCourse)
     = List.map GradeCategory.weight cats.
Proof.
  intros Hc Hcats. unfold categoryGrades, calculateGradeByCategory.
  rewrite Hc, Hcats. split; [apply List.length_map|].
  rewrite !List.map_map.
  split; apply List.map_ext; intros category;
    apply gradeOfCategory_name_weight.
Qed.

Lemma breakdown_follows_categories_witness :
  List.map CategoryGrade.name
    (categoryGrades [example_course] example_assignments (Some 1%Z))
  = List.map GradeCategory.name
      [GradeCategory.mk "Homework" 40; GradeCategory.mk "Exams" 60].
Proof.
  apply (breakdown_follows_categories [example_course] example_assignments
           (Some 1%Z) example_course); reflexivity.
Defined.

Lemma filter_kept {A} (p q k : A -> bool) (l : list A) :
  (forall a, p a = true -> q a = true -> k a = true) ->
  List.filter p (List.filter q (List.filter k l))
  = List.filter p (List.filter q l).
Proof.
  intros H. induction l as [|a l IH]; simpl; [reflexivity|].
  destruct (k a) eqn:Ek; simpl.
  - destruct (q a); simpl; [destruct (p a)|]; rewrite ?IH; reflexivity.
  - destruct (q a) eqn:Eq; simpl; [|exact IH].
    destruct (p a) eqn:Ep; [|exact IH].
    rewrite (H a Ep Eq) in Ek. discriminate Ek.
Qed.

(** X15. Only the assignments of the selected course that are completed,
    graded and of one of the course's categories enter the computation:
    dropping any others from the input changes neither the breakdown nor
    the adjusted or displayed grade. *)
Theorem other_assignments_ignored
    (courses : list Course.t) (assignments : list Assignment.t)
    (selectedCourse : option Z) (c : Course.t) (cats : list GradeCategory.t)
    (keep : Assignment.t -> bool) :
  currentCourse courses selectedCourse = Some c ->
  Course.gradeCategories c = Some cats ->
  (forall a, counts cats selectedCourse a = true -> keep a = true) ->
  categoryGrades courses (List.filter keep assignments) selectedCourse
  = categoryGrades courses assignments selectedCourse
  /\ adjustedGrade courses (List.filter keep assignments) selectedCourse
     = adjustedGrade courses assignments selectedCourse
  /\ displayedGrade courses (List.filter keep assignments) selectedCourse
     = displayedGrade courses assignments selectedCourse.
Proof.
  intros Hc Hcats Hkeep.
  assert (H : categoryGrades courses (List.filter keep assignments)
                selectedCourse
              = categoryGrades courses assignments selectedCourse).
  { unfold categoryGrades, calculateGradeByCategory. rewrite Hc, Hcats.
    apply List.map_ext_in. intros category Hin.
    unfold gradeOfCategory, categoryAssignments, courseAssignments.
    rewrite filter_kept; [reflexivity|].
    intros a Hp Hq. apply Hkeep. unfold counts. rewrite Hq. simpl.
    apply List.existsb_exists. exists category. split; assumption. }
  unfold displayedGrade, adjustedGrade. rewrite H. repeat split.
Qed.

Lemma other_assignments_ignored_witness :
  categoryGrades [example_course]
    (List.filter Assignment.completed
       (Assignment.mk 1 "Homework" false (Some 10) :: example_assignments))
    (Some 1%Z)
  = categoryGrades [example_course]
      (Assignment.mk 1 "Homework" false (Some 10) :: example_assignments)
      (Some 1%Z).
Proof.
  apply (other_assignments_ignored [example_course]
           (Assignment.mk 1 "Homework" false (Some 10) :: example_assignments)
           (Some 1%Z) example_course
           [GradeCategory.mk "Homework" 40; GradeCategory.mk "Exams" 60]
           Assignment.completed); [reflexivity..|].
  intros a Ha. unfold counts in Ha.
  destruct (Assignment.completed a); [reflexivity|].
  rewrite andb_false_r in Ha. discriminate Ha.
Defined.

(** ** Counting the graded assignments *)

Lemma list_sum_map_add {A} (f g : A -> nat) (l : list A) :
  list_sum (List.map (fun x => (f x + g x)%nat) l)
  = (list_sum (List.map f l) + list_sum (List.map g l))%nat.
Proof. induction l as [|x l IH]; simpl; [reflexivity|]. rewrite IH. lia. Qed.

Lemma list_sum_map_zero {A} (l : list A) :
  list_sum (List.map (fun _ => 0%nat) l) = 0%nat.
Proof. induction l as [|x l IH]; simpl; [reflexivity|exact IH]. Qed.

(** How many of the categories an assignment category falls into. *)
Lemma hits_absent (s : string) (cats : list GradeCategory.t) :
  s ∉ List.map GradeCategory.name cats ->
  list_sum
    (List.map
       (fun c => if String.eqb s (GradeCategory.name c) then 1%nat else 0%nat)
       cats) = 0%nat.
Proof.
  induction cats as [|c cats IH]; intros Hs; simpl; [reflexivity|].
  simpl in Hs. apply not_elem_of_cons in Hs. destruct Hs as [Hc Hs].
  destruct (String.eqb_spec s (GradeCategory.name c)); [contradiction|].
  apply IH, Hs.
Qed.

Lemma hits_at_most_one (s : string) (cats : list GradeCategory.t) :
  NoDup (List.map GradeCategory.name cats) ->
  (list_sum
     (List.map
        (fun c => if String.eqb s (GradeCategory.name c) then 1%nat else 0%nat)
        cats) <= 1)%nat
  /\ (existsb (fun c => String.eqb s (GradeCategory.name c)) cats = true ->
      list_sum
        (List.map
           (fun c => if String.eqb s (GradeCategory.name c) then 1%nat
                     else 0%nat)
           cats) = 1%nat).
Proof.
  induction cats as [|c cats IH]; intros Hnd; simpl.
  - split; [lia|discriminate].
  - simpl in Hnd. apply NoDup_cons in Hnd. destruct Hnd as [Hc Hnd].
    destruct (String.eqb_spec s (GradeCategory.name c)) as [->|Hne].
    + rewrite (hits_absent _ _ Hc). split; [lia|reflexivity].
    + simpl. apply IH, Hnd.
Qed.

Lemma counts_sum (cas : list Assignment.t) (cats : list GradeCategory.t) :
  NoDup (List.map GradeCategory.name cats) ->
  (list_sum
     (List.map (fun c => length (categoryAssignments cas c)) cats)
   <= length cas)%nat
  /\ ((forall a, In a cas ->
                 existsb
                   (fun c => String.eqb (Assignment.category a)
                               (GradeCategory.name c)) cats = true) ->
      list_sum
        (List.map (fun c => length (categoryAssignments cas c)) cats)
      = length cas).
Proof.
  intros Hnd. induction cas as [|a cas [IHle IHeq]].
  - simpl. rewrite list_sum_map_zero. split; [lia|reflexivity].
  - assert (Hstep :
      List.map (fun c => length (categoryAssignments (a :: cas) c)) cats
      = List.map
          (fun c =>
             ((if String.eqb (Assignment.category a) (GradeCategory.name c)
               then 1 else 0)
              + length (categoryAssignments cas c))%nat) cats).
    { apply List.map_ext. intros c. unfold categoryAssignments. simpl.
      destruct (String.eqb (Assignment.category a) (GradeCategory.name c));
        reflexivity. }
    rewrite Hstep, list_sum_map_add.
    destruct (hits_at_most_one (Assignment.category a) cats Hnd)
      as [Hle Heq].
    split; [simpl; lia|].
    intros Hall. rewrite Heq by (apply Hall; left; reflexivity).
    rewrite IHeq; [reflexivity|].
    intros a' Ha'. apply Hall. right. exact Ha'.
Qed.

(** X16. When the category names of the current course are pairwise
    distinct, the counts of the breakdown add up to at most the number of
    graded assignments of the course, and to exactly that number when every
    such assignment is of one of the categories. *)
Theorem counts_add_up
    (courses : list Course.t) (assignments : list Assignment.t)
    (selectedCourse : option Z) (c : Course.t) (cats : list GradeCategory.t) :
  currentCourse courses selectedCourse = Some c ->
  Course.gradeCategories c = Some cats ->
  NoDup (List.map GradeCategory.name cats) ->
  (list_sum
     (List.map CategoryGrade.count
        (categoryGrades courses assignments selectedCourse))
   <= length (courseAssignments assignments selectedCourse))%nat
  /\ ((forall a, In a (courseAssignments assignments selectedCourse) ->
                 existsb
                   (fun c => String.eqb (Assignment.category a)
                               (GradeCategory.name c)) cats = true) ->
      list_sum
        (List.map CategoryGrade.count
           (categoryGrades courses assignments selectedCourse))
      = length (courseAssignments assignments selectedCourse)).
Proof.
  intros Hc Hcats Hnd. unfold categoryGrades, calculateGradeByCategory.
  rewrite Hc, Hcats, List.map_map.
  rewrite (List.map_ext _ _ (gradeOfCategory_count _)).
  apply counts_sum, Hnd.
Qed.

Lemma counts_add_up_witness :
  (list_sum
     (List.map CategoryGrade.count
        (categoryGrades [example_course] example_assignments (Some 1%Z)))
   <= length (courseAssignments example_assignments (Some 1%Z)))%nat.
Proof.
  apply (counts_add_up [example_course] example_assignments (Some 1%Z)
           example_course
           [GradeCategory.mk "Homework" 40; GradeCategory.mk "Exams" 60]);
    [reflexivity..|].
  apply (bool_decide_unpack _). vm_compute. exact I.
Defined.

(** ** The weight denominator *)

Lemma totalWeight_from (cas : list Assignment.t) (cats : list GradeCategory.t)
    (acc : float) :
  fold_left
    (fun sum cat =>
       if Nat.ltb 0 (CategoryGrade.count cat) then sum + CategoryGrade.weight cat
       else sum)
    (List.map (gradeOfCategory cas) cats) acc
  = fold_left add
      (List.map GradeCategory.weight
         (List.filter
            (fun c => negb (Nat.eqb (length (categoryAssignments cas c)) 0))
            cats))
      acc.
Proof.
  revert acc. induction cats as [|c cats IH]; intros acc; simpl;
    [reflexivity|].
  rewrite gradeOfCategory_count.
  destruct (gradeOfCategory_name_weight cas c) as [_ ->].
  destruct (length (categoryAssignments cas c)) as [|n]; simpl; apply IH.
Qed.

(** X17. totalWeight is the sum, from the left and starting at 0, of the
    weights of exactly those categories that have a matching graded
    assignment; the other categories do not enter it. *)
Theorem totalWeight_of_graded_categories
    (courses : list Course.t) (assignments : list Assignment.t)
    (selectedCourse : option Z) (c : Course.t) (cats : list GradeCategory.t) :
  currentCourse courses selectedCourse = Some c ->
  Course.gradeCategories c = Some cats ->
  totalWeight (categoryGrades courses assignments selectedCourse)
  = fold_left add
      (List.map GradeCategory.weight
         (List.filter
            (fun c =>
               negb (Nat.eqb
                       (length
                          (categoryAssignments
                             (courseAssignments assignments selectedCourse) c))
                       0))
            cats))
      0.
Proof.
  intros Hc Hcats. unfold totalWeight, categoryGrades, calculateGradeByCategory.
  rewrite Hc, Hcats. apply totalWeight_from.
Qed.

Lemma totalWeight_of_graded_categories_witness :
  totalWeight (categoryGrades [example_course] thirds_assignments (Some 1%Z))
  = fold_left add
      (List.map GradeCategory.weight
         (List.filter
            (fun c =>
               negb (Nat.eqb
                       (length
                          (categoryAssignments
                             (courseAssignments thirds_assignments (Some 1%Z))
                             c))
                       0))
            [GradeCategory.mk "Homework" 40; GradeCategory.mk "Exams" 60]))
      0.
Proof.
  apply (totalWeight_of_graded_categories [example_course] thirds_assignments
           (Some 1%Z) example_course); reflexivity.
Defined.

(** ** No current course, no categories *)

Lemma currentCourse_absent (courses : list Course.t) (selectedCourse : option Z) :
  (forall c, In c courses -> selectedCourse <> Some (Course.Id c)) ->
  currentCourse courses selectedCourse = None.
Proof.
  intros H. unfold currentCourse. apply find_never. intros c Hc.
  unfold strict_eq_Id. destruct selectedCourse as [z|]; [|reflexivity].
  apply Z.eqb_neq. intros Heq. apply (H c Hc). congruence.
Qed.

(** X18. When the selected Id designates none of the courses (or nothing
    is selected), or the current course has no gradeCategories or an empty
    list of them, the breakdown is empty and the adjusted and displayed
    grades are 0. *)
Theorem empty_breakdown
    (courses : list Course.t) (assignments : list Assignment.t)
    (selectedCourse : option Z) :
  (forall c, In c courses -> selectedCourse <> Some (Course.Id c))
  \/ (exists c, currentCourse courses selectedCourse = Some c
                /\ (Course.gradeCategories c = None
                    \/ Course.gradeCategories c = Some [])) ->
  categoryGrades courses assignments selectedCourse = []
  /\ adjustedGrade courses assignments selectedCourse = 0
  /\ displayedGrade courses assignments selectedCourse = 0.
Proof.
  intros H.
  assert (Hnil : categoryGrades courses assignments selectedCourse = []).
  { unfold categoryGrades, calculateGradeByCategory.
    destruct H as [H|[c [Hc [Hg|Hg]]]].
    - rewrite (currentCourse_absent _ _ H). reflexivity.
    - rewrite Hc, Hg. reflexivity.
    - rewrite Hc, Hg. reflexivity. }
  unfold displayedGrade, adjustedGrade. rewrite Hnil.
  repeat split.
Qed.

Lemma empty_breakdown_witness :
  categoryGrades [example_course] example_assignments (Some 7%Z) = []
  /\ adjustedGrade [example_course] example_assignments (Some 7%Z) = 0
  /\ displayedGrade [example_course] example_assignments (Some 7%Z) = 0.
Proof.
  apply (empty_breakdown [example_course] example_assignments (Some 7%Z)).
  left. intros c [<-|[]]. discriminate.
Defined.

(** ** Only graded work is used *)

Lemma courseAssignments_graded
    (assignments : list Assignment.t) (selectedCourse : option Z)
    (a : Assignment.t) :
  In a (courseAssignments assignments selectedCourse) ->
  selectedCourse = Some (Assignment.courseId a)
  /\ Assignment.completed a = true
  /\ Assignment.grade a = Some (grade_num a).
Proof.
  intros H. apply List.filter_In in H. destruct H as [_ H].
  apply andb_true_iff in H. destruct H as [H Hg].
  apply andb_true_iff in H. destruct H as [Hsel Hdone].
  split; [|split; [exact Hdone|]].
  - unfold strict_eq_Id in Hsel. destruct selectedCourse as [z|];
      [|discriminate Hsel].
    apply Z.eqb_eq in Hsel. congruence.
  - unfold grade_num. destruct (Assignment.grade a); [reflexivity|].
    discriminate Hg.
Qed.

Lemma In_firstn {A} (n : nat) (l : list A) (x : A) :
  In x (firstn n l) -> In x l.
Proof.
  revert l. induction n as [|n IH]; intros [|y l] H; simpl in H; try tauto.
  destruct H as [->|H]; [left; reflexivity|right; apply IH, H].
Qed.

(** X21. Every assignment that enters a category average, and every
    assignment listed as recent, belongs to the selected course, is
    completed and has a grade, so that a null grade is never summed or
    listed; and at most 10 assignments are listed as recent. *)
Theorem only_graded_assignments_used
    (assignments : list Assignment.t) (selectedCourse : option Z)
    (category : GradeCategory.t) (a : Assignment.t) :
  In a (categoryAssignments (courseAssignments assignments selectedCourse)
          category)
  \/ In a (recentAssignments assignments selectedCourse) ->
  selectedCourse = Some (Assignment.courseId a)
  /\ Assignment.completed a = true
  /\ Assignment.grade a = Some (grade_num a)
  /\ (length (recentAssignments assignments selectedCourse) <= 10)%nat.
Proof.
  intros H.
  assert (Hin : In a (courseAssignments assignments selectedCourse)).
  { destruct H as [H|H].
    - apply List.filter_In in H. tauto.
    - unfold recentAssignments in H. apply In_firstn in H. exact H. }
  destruct (courseAssignments_graded _ _ _ Hin) as [H1 [H2 H3]].
  repeat split; try assumption.
  unfold recentAssignments. apply List.firstn_le_length.
Qed.

Lemma only_graded_assignments_used_witness :
  Some 1%Z = Some (Assignment.courseId (Assignment.mk 1 "Exams" true (Some 70)))
  /\ Assignment.completed (Assignment.mk 1 "Exams" true (Some 70)) = true
  /\ Assignment.grade (Assignment.mk 1 "Exams" true (Some 70))
     = Some (grade_num (Assignment.mk 1 "Exams" true (Some 70)))
  /\ (length (recentAssignments example_assignments (Some 1%Z)) <= 10)%nat.
Proof.
  apply (only_graded_assignments_used example_assignments (Some 1%Z)
           (GradeCategory.mk "Exams" 60)).
  left. left. reflexivity.
Defined.

(** ** loadData *)

(** X19. When the two calls resolve with at least one course and nothing
    was selected (null or 0), loadData selects the first course: the page
    is rendered, and the current course is that first course. A selection
    made before is kept. *)
Theorem loadData_selects_first_course
    (st : State.t) (c : Course.t) (rest : list Course.t)
    (assignmentsData : list Assignment.t) :
  let st' := loadData st (Resolved (c :: rest) assignmentsData) in
  render st' = Page
  /\ State.courses st' = c :: rest
  /\ State.assignments st' = assignmentsData
  /\ (not_selected (State.selectedCourse st) = true ->
      State.selectedCourse st' = Some (Course.Id c)
      /\ currentCourse (State.courses st') (State.selectedCourse st')
         = Some c)
  /\ (not_selected (State.selectedCourse st) = false ->
      State.selectedCourse st' = State.selectedCourse st).
Proof.
  simpl. split; [reflexivity|]. split; [reflexivity|].
  split; [reflexivity|]. split; intros H; rewrite H; [|reflexivity].
  split; [reflexivity|]. simpl. rewrite Z.eqb_refl. reflexivity.
Qed.

Lemma loadData_selects_first_course_witness :
  State.selectedCourse
    (loadData initialState (Resolved [example_course] example_assignments))
  = Some 1%Z
  /\ currentCourse
       (State.courses
          (loadData initialState (Resolved [example_course] example_assignments)))
       (State.selectedCourse
          (loadData initialState (Resolved [example_course] example_assignments)))
     = Some example_course.
Proof.
  apply (loadData_selects_first_course initialState example_course []
           example_assignments).
  reflexivity.
Defined.

Lemma error_message_truthy (message : js_value) :
  js_truthy (error_message message) = true.
Proof.
  unfold error_message. destruct (js_truthy message) eqn:E;
    [exact E|reflexivity].
Qed.

(** X20. When one of the two calls rejects with a reason whose message
    can be read, loadData ends in the Error view, whose message is that
    message when it is truthy and "Failed to load grades" when it is
    missing, empty or otherwise falsy. When the reason is undefined or
    null, reading its message throws inside the catch block: no error is
    recorded, and the component renders the page, or "No courses yet",
    from the data it had. Either way the loading ends, the courses,
    assignments and selection of the state are kept, and a later loadData
    that resolves leaves no error. *)
Theorem loadData_rejected
    (st : State.t) (message : js_value)
    (coursesData : list Course.t) (assignmentsData : list Assignment.t) :
  let st' := loadData st (Rejected (Message message)) in
  let st0 := loadData st (Rejected Unreadable) in
  render st' = Error (error_message message)
  /\ js_truthy (error_message message) = true
  /\ error_message (JString "") = JString "Failed to load grades"
  /\ error_message (JOther false) = JString "Failed to load grades"
  /\ State.courses st' = State.courses st
  /\ State.assignments st' = State.assignments st
  /\ State.selectedCourse st' = State.selectedCourse st
  /\ State.error (loadData st' (Resolved coursesData assignmentsData))
     = js_null
  /\ State.loading st0 = false
  /\ State.error st0 = js_null
  /\ render st0 = match State.courses st with [] => NoCourses | _ => Page end
  /\ State.courses st0 = State.courses st
  /\ State.assignments st0 = State.assignments st
  /\ State.selectedCourse st0 = State.selectedCourse st
  /\ State.error (loadData st0 (Resolved coursesData assignmentsData))
     = js_null.
Proof.
  cbv zeta. pose proof (error_message_truthy message) as Ht.
  split; [unfold render; cbn [loadData State.loading State.error];
          rewrite Ht; reflexivity|].
  split; [exact Ht|]. repeat split.
Qed.

End GradesBreakdown.
